(** * reMarkable-typescript: the cloud client of [src/remarkable.ts]

    A shallow embedding of the [Remarkable] class.  The instance fields are a
    record that every method threads through; the calls that leave the
    process (HTTP requests through [got], the download stream, [uuidv4],
    [new Date()]) are appended to a log of effects and answered by a
    [World], so that "no further request is issued" is a statement about
    that log. *)

From Stdlib Require Import ZArith String List Bool Ascii.
From stdpp Require Import gmap strings list fin_maps pretty.

Local Open Scope string_scope.
Local Open Scope Z_scope.
Local Open Scope list_scope.

(** ** JavaScript values the class relies on *)

(** [if (x)] / [!x] on an optional string: [undefined] and the empty string
    are falsy, every other string is truthy. *)
Definition truthy (v : option string) : bool :=
  match v with
  | Some (String _ _) => true
  | Some EmptyString => false
  | None => false
  end.

(** An optional string spliced into a template literal. *)
Definition interpolate (v : option string) : string :=
  match v with
  | Some s => s
  | None => "undefined"
  end.

Definition Buffer : Type := list Byte.byte.

(** The objects handed to [JSON.stringify]. *)
#[warnings="-register-all"]
Inductive Json : Type :=
| JNum (z : Z)
| JStr (s : string)
| JBool (b : bool)
| JObj (fields : list (string * Json)).

Definition dquote : string := String (ascii_of_nat 34) EmptyString.
Definition backslash : string := String (ascii_of_nat 92) EmptyString.

(** String quoting of [JSON.stringify]: the quote and the backslash are
    escaped (the descriptor below holds neither, nor control characters). *)
Fixpoint escape (s : string) : string :=
  match s with
  | EmptyString => EmptyString
  | String c r =>
      if Ascii.eqb c (ascii_of_nat 34) then backslash +:+ dquote +:+ escape r
      else if Ascii.eqb c (ascii_of_nat 92) then backslash +:+ backslash +:+ escape r
      else String c (escape r)
  end.

Definition quote (s : string) : string := dquote +:+ escape s +:+ dquote.

Fixpoint stringify (j : Json) : string :=
  match j with
  | JNum z => pretty z
  | JStr s => quote s
  | JBool true => "true"
  | JBool false => "false"
  | JObj fields =>
      let fix members (first : bool) (l : list (string * Json)) : string :=
        match l with
        | [] => EmptyString
        | (k, v) :: r =>
            (if first then EmptyString else ",")
              +:+ quote k +:+ ":" +:+ stringify v +:+ members false r
        end in
      "{" +:+ members true fields +:+ "}"
  end.

(** ** Types of [./types]

    The module is imported by the class but is not part of the sources at
    hand; its shapes are taken from the wire contracts of the specification. *)

(** Modelled from the spec: [ItemType], of which the class uses
    [ItemType.DocumentType] only. *)
Inductive ItemType : Type := DocumentType.

(** Modelled from the spec: [ItemResponse], the item record (identifier,
    display name, version and the blob reference pair, present when
    requested). *)
Record ItemResponse : Type := mkItemResponse {
  item_ID : string;
  item_Version : Z;
  item_VissibleName : string;
  item_BlobURLGet : option string;
  item_BlobURLPut : option string;
}.

(** Modelled from the spec: [ReturnType], the per-item result [{ID, Success}]
    of delete and update-status. *)
Record ReturnType : Type := mkReturnType {
  ret_ID : string;
  ret_Success : bool;
}.

(** Modelled from the spec: [UploadRequestReturnType], the per-item result
    [{Success, BlobURLPut}] of an upload request. *)
Record UploadRequestReturnType : Type := mkUploadRequestReturnType {
  upl_Success : bool;
  upl_BlobURLPut : option string;
}.

(** The answer of the service discovery, typed by the class itself as
    [{ Host: string; Status: string }]. *)
Record ServiceBody : Type := mkServiceBody {
  Host : string;
  Status : string;
}.

(** ** Requests *)

Inductive Method : Type := GET | PUT | POST.

(** The headers the class sets itself ([None]: left to [got]). *)
Record Headers : Type := mkHeaders {
  UserAgent : option string;
  Authorization : option string;
  ContentType : option string;
}.

(** [defaultPDFmetadata] and the object built from it for update-status. *)
Record Metadata : Type := mkMetadata {
  md_deleted : bool;
  md_lastModified : string;
  md_ModifiedClient : string;
  md_metadatamodified : bool;
  md_modified : bool;
  md_parent : string;
  md_pinned : bool;
  md_synced : bool;
  md_type : ItemType;
  md_version : Z;
  md_VissibleName : string;
  md_ID : option string;
}.

Inductive Payload : Type :=
| NoBody
| RegisterJson (code deviceDesc deviceId : string)
| DeleteJson (ID : string) (Version : Z)
| UploadRequestJson (ID : string) (Type_ : ItemType) (Version : Z)
| UpdateStatusJson (m : Metadata)
| RawBody (zipFile : Buffer).

Record Request : Type := mkRequest {
  method : Method;
  url : string;
  headers : Headers;
  payload : Payload;
}.

(** What the instance does to the outside, in order. *)
Inductive Effect : Type :=
| Http (r : Request)
| OpenStream (url : string)
| DrawUuid
| ReadClock.

(** ** The instance *)

(** An entry handed to [JSZip.file]: a string, a buffer or an array. *)
Inductive ZipData : Type :=
| ZText (s : string)
| ZBuffer (b : Buffer)
| ZArray (a : list Z).

Record Remarkable : Type := mkRemarkable {
  token : option string;
  deviceToken : option string;
  gotClient : Headers;
  storageUrl : option string;
  notificationUrl : option string;
  zip : gmap string ZipData;
}.

Definition with_token (v : option string) (h : Headers) (s : Remarkable) : Remarkable :=
  mkRemarkable v (deviceToken s) h (storageUrl s) (notificationUrl s) (zip s).
Definition with_deviceToken (v : option string) (s : Remarkable) : Remarkable :=
  mkRemarkable (token s) v (gotClient s) (storageUrl s) (notificationUrl s) (zip s).
Definition with_storageUrl (v : option string) (s : Remarkable) : Remarkable :=
  mkRemarkable (token s) (deviceToken s) (gotClient s) v (notificationUrl s) (zip s).
Definition with_notificationUrl (v : option string) (s : Remarkable) : Remarkable :=
  mkRemarkable (token s) (deviceToken s) (gotClient s) (storageUrl s) v (zip s).
Definition with_zip (z : gmap string ZipData) (s : Remarkable) : Remarkable :=
  mkRemarkable (token s) (deviceToken s) (gotClient s) (storageUrl s) (notificationUrl s) z.

(** ** Exceptions and promises *)

Inductive Exn : Type :=
| Error (message : string)       (* [throw new Error(...)] / [throw Error(...)] *)
| TypeError (property : string)  (* a property read off [undefined] *)
| GotError (reason : string).    (* a request rejected by [got] *)

(** The errors of the specification's taxonomy are the messages the class
    throws. *)
Definition AuthenticationRequiredError : Exn :=
  Error "You need to call refreshToken() first".
Definition DeviceTokenRequiredError : Exn :=
  Error "You must register your reMarkable first".
Definition RegistrationError : Exn :=
  Error "Must provide a code from https://my.remarkable.com/connect/desktop".
Definition BlobNotFoundError : Exn :=
  Error "Couldn't find BlobURLGet in response".
Definition UploadRequestError : Exn :=
  Error "Error during the creation of the upload request".
Definition UploadTransferError : Exn :=
  Error "Error during the upload of the document".
Definition MetadataUpdateError : Exn :=
  Error "Error during the update status of the metadata".

(** How an awaited promise ends; [Pending] is the promise of [downloadZip]
    whose stream never signals [end]. *)
Inductive Outcome (A : Type) : Type :=
| Resolved (a : A)
| Rejected (e : Exn)
| Pending.
Arguments Resolved {A} a.
Arguments Rejected {A} e.
Arguments Pending {A}.

Definition Async (A : Type) : Type :=
  Remarkable -> list Effect -> Outcome A * Remarkable * list Effect.

Definition ret {A} (a : A) : Async A := fun s tr => (Resolved a, s, tr).
Definition throw {A} (e : Exn) : Async A := fun s tr => (Rejected e, s, tr).
Definition bind {A B} (m : Async A) (k : A -> Async B) : Async B :=
  fun s tr =>
    match m s tr with
    | (Resolved a, s', tr') => k a s' tr'
    | (Rejected e, s', tr') => (Rejected e, s', tr')
    | (Pending, s', tr') => (Pending, s', tr')
    end.
Definition this : Async Remarkable := fun s tr => (Resolved s, s, tr).
Definition assign (f : Remarkable -> Remarkable) : Async unit :=
  fun s tr => (Resolved tt, f s, tr).

Notation "x <- m ;; k" := (bind m (fun x => k))
  (at level 100, m at next level, right associativity).
Notation "m ;;; k" := (bind m (fun _ => k))
  (at level 100, right associativity).

(** ** The collaborators *)

(** Everything outside the class: the services behind [got] (each answer may
    depend on all that happened before), the libraries imported from other
    modules ([uuid], [query-string], [jszip], [./utils], [package.json]) and
    the clock.  A request answered by [inl] is one [got] rejects. *)
Record World : Type := mkWorld {
  pkgVersion : string;
  generateDeviceId : string;
  moduleLoadedAt : string * string;
  queryString_stringify : option string -> bool -> string;
  uuidv4 : list Effect -> string;
  toISOString : list Effect -> string;
  generateAsync : gmap string ZipData -> Buffer;
  postText : list Effect -> Request -> string + string;
  getHost : list Effect -> Request -> string + ServiceBody;
  getItems : list Effect -> Request -> string + list ItemResponse;
  putReturn : list Effect -> Request -> string + list ReturnType;
  putUploadRequest : list Effect -> Request -> string + list UploadRequestReturnType;
  putBlob : list Effect -> Request -> string + Z;
  readStream : list Effect -> string -> option (list Buffer);
}.

Definition await {A} (oracle : list Effect -> Request -> string + A) (r : Request)
  : Async A :=
  fun s tr =>
    match oracle tr r with
    | inr a => (Resolved a, s, tr ++ [Http r])
    | inl e => (Rejected (GotError e), s, tr ++ [Http r])
    end.

Definition draw {A} (oracle : list Effect -> A) (e : Effect) : Async A :=
  fun s tr => (Resolved (oracle tr), s, tr ++ [e]).

(** ** The class *)

(** The argument of [getStorageUrl] and [getNotificationsUrl]; a field left
    out takes the default of the destructuring pattern. *)
Record UrlOptions : Type := mkUrlOptions {
  environment : option string;
  group : option string;
  apiVer : option Z;
}.
Definition noOptions : UrlOptions := mkUrlOptions None None None.

(** The argument of [register]. *)
Record RegisterArgs : Type := mkRegisterArgs {
  reg_code : string;
  reg_deviceDesc : option string;
  reg_deviceId : option string;
}.

(** [defaultPDFContent]. *)
Definition defaultPDFContent : Json :=
  JObj [ ("extraMetadata", JObj []);
         ("fileType", JStr "pdf");
         ("lastOpenedPage", JNum 0);
         ("lineHeight", JNum (-1));
         ("margins", JNum 180);
         ("pageCount", JNum 0);
         ("textScale", JNum 1);
         ("transform", JObj []) ].

Section Client.

Variable w : World.

Definition userAgent : string := "remarkable-typescript/" +:+ pkgVersion w.

(** [gotConfiguration.headers]. *)
Definition gotConfiguration : Headers := mkHeaders (Some userAgent) None None.

Definition defaultPDFmetadata : Metadata :=
  {| md_deleted := false;
     md_lastModified := fst (moduleLoadedAt w);
     md_ModifiedClient := snd (moduleLoadedAt w);
     md_metadatamodified := false;
     md_modified := false;
     md_parent := EmptyString;
     md_pinned := false;
     md_synced := true;
     md_type := DocumentType;
     md_version := 1;
     md_VissibleName := "New Document";
     md_ID := None |}.

(** [constructor({ deviceToken } = {})]. *)
Definition constructor (props : option string) : Remarkable :=
  {| token := None;
     deviceToken := if truthy props then props else None;
     gotClient := gotConfiguration;
     storageUrl := None;
     notificationUrl := None;
     zip := ∅ |}.

Definition setToken (tok : string) : Async string :=
  assign (with_token (Some tok)
            (mkHeaders (Some userAgent) (Some ("Bearer " +:+ tok)) None)) ;;;
  ret tok.

Definition refreshToken : Async string :=
  s <- this ;;
  if negb (truthy (deviceToken s)) then throw DeviceTokenRequiredError else
  body <- await (postText w)
            {| method := POST;
               url := "https://my.remarkable.com/token/json/2/user/new";
               headers := mkHeaders (Some userAgent)
                            (Some ("Bearer " +:+ interpolate (deviceToken s))) None;
               payload := NoBody |} ;;
  setToken body ;;;
  ret body.

Definition discovery (service : string) (dflt : Z) (o : UrlOptions) : string :=
  "https://service-manager-production-dot-remarkable-production.appspot.com/service/json/1/"
    +:+ service
    +:+ "?environment=" +:+ default "production" (environment o)
    +:+ "&group=" +:+ default "auth0|5a68dc51cb30df3877a1d7c4" (group o)
    +:+ "&apiVer=" +:+ pretty (default dflt (apiVer o)).

Definition getStorageUrl (o : UrlOptions) : Async string :=
  s <- this ;;
  if truthy (storageUrl s) then ret (interpolate (storageUrl s)) else
  if negb (truthy (token s)) then throw AuthenticationRequiredError else
  body <- await (getHost w)
            (mkRequest GET (discovery "document-storage" 2 o) (gotClient s) NoBody) ;;
  assign (with_storageUrl (Some ("https://" +:+ Host body))) ;;;
  ret ("https://" +:+ Host body).

Definition getNotificationsUrl (o : UrlOptions) : Async string :=
  s <- this ;;
  if truthy (notificationUrl s) then ret (interpolate (notificationUrl s)) else
  if negb (truthy (token s)) then throw AuthenticationRequiredError else
  body <- await (getHost w)
            (mkRequest GET (discovery "notifications" 1 o) (gotClient s) NoBody) ;;
  assign (with_notificationUrl (Some ("wss://" +:+ Host body))) ;;;
  ret ("wss://" +:+ Host body).

Definition register (a : RegisterArgs) : Async string :=
  if negb (truthy (Some (reg_code a))) then throw RegistrationError else
  body <- await (postText w)
            {| method := POST;
               url := "https://my.remarkable.com/token/json/2/device/new";
               headers := mkHeaders None None None;
               payload := RegisterJson (reg_code a)
                            (default "desktop-windows" (reg_deviceDesc a))
                            (default (generateDeviceId w) (reg_deviceId a)) |} ;;
  assign (with_deviceToken (Some body)) ;;;
  refreshToken ;;;
  ret body.

Definition listItems (doc : option string) (withBlob : option bool)
  : Async (list ItemResponse) :=
  s <- this ;;
  if negb (truthy (token s)) then throw AuthenticationRequiredError else
  let stringifiedQuery := queryString_stringify w doc (default true withBlob) in
  base <- getStorageUrl noOptions ;;
  c <- this ;;
  await (getItems w)
    (mkRequest GET (base +:+ "/document-storage/json/2/docs?" +:+ stringifiedQuery)
       (gotClient c) NoBody).

Definition getItemWithId (id : string) : Async (option ItemResponse) :=
  body <- listItems (Some id) None ;;
  ret (head body).

Definition getAllItems : Async (list ItemResponse) := listItems None None.

Definition deleteItem (id : string) (version : Z) : Async bool :=
  base <- getStorageUrl noOptions ;;
  c <- this ;;
  body <- await (putReturn w)
            (mkRequest PUT (base +:+ "/document-storage/json/2/delete")
               (gotClient c) (DeleteJson id version)) ;;
  match body with
  | r :: _ => ret (ret_Success r)
  | [] => throw (TypeError "Success")
  end.

(** [got.stream(url)] collected until [end]. *)
Definition collect (url : string) : Async Buffer :=
  fun s tr =>
    match readStream w tr url with
    | Some chunks => (Resolved (concat chunks), s, tr ++ [OpenStream url])
    | None => (Pending, s, tr ++ [OpenStream url])
    end.

Definition downloadZip (id : string) : Async Buffer :=
  s <- this ;;
  if negb (truthy (token s)) then throw AuthenticationRequiredError else
  item <- getItemWithId id ;;
  match item with
  | None => throw (TypeError "BlobURLGet")
  | Some it =>
      if negb (truthy (item_BlobURLGet it)) then throw BlobNotFoundError else
      collect (interpolate (item_BlobURLGet it))
  end.

Definition uploadZip (name ID : string) (zipFile : Buffer) : Async string :=
  s <- this ;;
  if negb (truthy (token s)) then throw AuthenticationRequiredError else
  base <- getStorageUrl noOptions ;;
  c <- this ;;
  body <- await (putUploadRequest w)
            (mkRequest PUT (base +:+ "/document-storage/json/2/upload/request")
               (gotClient c) (UploadRequestJson ID DocumentType 1)) ;;
  match body with
  | [] => throw (TypeError "Success")
  | r :: _ =>
      if negb (upl_Success r) || negb (truthy (upl_BlobURLPut r))
      then throw UploadRequestError else
      c <- this ;;
      statusCode <- await (putBlob w)
                      (mkRequest PUT (interpolate (upl_BlobURLPut r))
                         (mkHeaders (Some userAgent)
                            (Some ("Bearer " +:+ interpolate (token c)))
                            (Some EmptyString))
                         (RawBody zipFile)) ;;
      if negb (statusCode =? 200) then throw UploadTransferError else
      c <- this ;;
      base' <- getStorageUrl noOptions ;;
      lastModified <- draw (toISOString w) ReadClock ;;
      modifiedClient <- draw (toISOString w) ReadClock ;;
      bodyUpdateStatus <-
        await (putReturn w)
          (mkRequest PUT (base' +:+ "/document-storage/json/2/upload/update-status")
             (gotClient c)
             (UpdateStatusJson
                {| md_deleted := md_deleted defaultPDFmetadata;
                   md_lastModified := lastModified;
                   md_ModifiedClient := modifiedClient;
                   md_metadatamodified := md_metadatamodified defaultPDFmetadata;
                   md_modified := md_modified defaultPDFmetadata;
                   md_parent := md_parent defaultPDFmetadata;
                   md_pinned := md_pinned defaultPDFmetadata;
                   md_synced := md_synced defaultPDFmetadata;
                   md_type := md_type defaultPDFmetadata;
                   md_version := md_version defaultPDFmetadata;
                   md_VissibleName := name;
                   md_ID := Some ID |})) ;;
      match bodyUpdateStatus with
      | [] => throw (TypeError "Success")
      | u :: _ =>
          if negb (ret_Success u) then throw MetadataUpdateError else ret (ret_ID u)
      end
  end.

(** [this.zip.file(name, data)]. *)
Definition zip_file (name : string) (data : ZipData) : Async unit :=
  assign (fun s => with_zip (<[name := data]> (zip s)) s).

Definition uploadPDF (name : string) (file : Buffer) : Async string :=
  s <- this ;;
  if negb (truthy (token s)) then throw AuthenticationRequiredError else
  ID <- draw (uuidv4 w) DrawUuid ;;
  zip_file (ID +:+ ".content") (ZText (stringify defaultPDFContent)) ;;;
  zip_file (ID +:+ ".pagedata") (ZArray []) ;;;
  zip_file (ID +:+ ".pdf") (ZBuffer file) ;;;
  z <- this ;;
  let zipContent := generateAsync w (zip z) in
  uploadZip name ID zipContent ;;;
  assign (with_zip ∅) ;;;
  ret ID.

(** ** Sequences of calls on one instance *)

Inductive Op : Type :=
| CallRefreshToken
| CallGetStorageUrl (o : UrlOptions)
| CallGetNotificationsUrl (o : UrlOptions)
| CallRegister (a : RegisterArgs)
| CallListItems (doc : option string) (withBlob : option bool)
| CallGetItemWithId (id : string)
| CallGetAllItems
| CallDeleteItem (id : string) (version : Z)
| CallDownloadZip (id : string)
| CallUploadZip (name ID : string) (zipFile : Buffer)
| CallUploadPDF (name : string) (file : Buffer).

Inductive Value : Type :=
| VString (s : string)
| VItems (l : list ItemResponse)
| VItem (i : option ItemResponse)
| VBool (b : bool)
| VBuffer (b : Buffer).

Definition call (op : Op) : Async Value :=
  match op with
  | CallRefreshToken => v <- refreshToken ;; ret (VString v)
  | CallGetStorageUrl o => v <- getStorageUrl o ;; ret (VString v)
  | CallGetNotificationsUrl o => v <- getNotificationsUrl o ;; ret (VString v)
  | CallRegister a => v <- register a ;; ret (VString v)
  | CallListItems doc withBlob => v <- listItems doc withBlob ;; ret (VItems v)
  | CallGetItemWithId id => v <- getItemWithId id ;; ret (VItem v)
  | CallGetAllItems => v <- getAllItems ;; ret (VItems v)
  | CallDeleteItem id version => v <- deleteItem id version ;; ret (VBool v)
  | CallDownloadZip id => v <- downloadZip id ;; ret (VBuffer v)
  | CallUploadZip name ID zipFile => v <- uploadZip name ID zipFile ;; ret (VString v)
  | CallUploadPDF name file => v <- uploadPDF name file ;; ret (VString v)
  end.

(** The instance and the log after a sequence of calls, whatever each
    call's outcome. *)
Fixpoint calls (ops : list Op) (s : Remarkable) (tr : list Effect)
  : Remarkable * list Effect :=
  match ops with
  | [] => (s, tr)
  | op :: rest =>
      let '(_, s', tr') := call op s tr in calls rest s' tr'
  end.

(** The methods the specification lists as requiring authorization. *)
Definition requiresAuthorization (op : Op) : bool :=
  match op with
  | CallRefreshToken | CallRegister _ => false
  | _ => true
  end.

End Client.

(** ** Scripted collaborators

    Concrete worlds on which the methods are run: a service that registers
    the device as [dtok], and whose other answers the scenario fixes. *)

Record Scenario : Type := mkScenario {
  sc_session : string + string;                       (* answer of user/new *)
  sc_slots : nat -> list UploadRequestReturnType;     (* answer of the n-th upload request *)
  sc_items : list ItemResponse;                       (* answer of docs *)
  sc_results : list ReturnType;                       (* answer of delete and update-status *)
}.

Definition isUploadRequest (e : Effect) : bool :=
  match e with
  | Http r => match payload r with UploadRequestJson _ _ _ => true | _ => false end
  | _ => false
  end.

Definition bytes_of_string (s : string) : Buffer :=
  map byte_of_ascii (list_ascii_of_string s).

Definition scripted (sc : Scenario) : World :=
  {| pkgVersion := "1.0.0";
     generateDeviceId := "device-0";
     moduleLoadedAt := ("2020-01-01T00:00:00.000Z", "2020-01-01T00:00:00.000Z");
     queryString_stringify := fun doc withBlob =>
       match doc with Some d => "doc=" +:+ d +:+ "&" | None => EmptyString end
         +:+ "withBlob=" +:+ (if withBlob then "true" else "false");
     uuidv4 := fun tr => "uuid-" +:+ pretty (length tr);
     toISOString := fun tr => "2020-01-02T00:00:00.000Z";
     generateAsync := fun z => flat_map (fun e => bytes_of_string (fst e)) (map_to_list z);
     postText := fun tr r =>
       if String.eqb (url r) "https://my.remarkable.com/token/json/2/device/new"
       then inr "dtok" else sc_session sc;
     getHost := fun tr r => inr (mkServiceBody "host.example" "OK");
     getItems := fun tr r => inr (sc_items sc);
     putReturn := fun tr r => inr (sc_results sc);
     putUploadRequest := fun tr r => inr (sc_slots sc (length (List.filter isUploadRequest tr)));
     putBlob := fun tr r => inr 200;
     readStream := fun tr u => Some [bytes_of_string "PK"] |}.

Definition granted : list UploadRequestReturnType :=
  [mkUploadRequestReturnType true (Some "https://blob.example/put")].
Definition refused : list UploadRequestReturnType :=
  [mkUploadRequestReturnType false None].

(** Everything succeeds. *)
Definition sunny : World :=
  scripted (mkScenario (inr "stok") (fun _ => granted) [] [mkReturnType "doc-1" true]).

(** The session token cannot be obtained. *)
Definition noSession : World :=
  scripted (mkScenario (inl "HTTPError 500") (fun _ => granted) [] []).

(** The first upload request is refused, the later ones are granted. *)
Definition refusedOnce : World :=
  scripted (mkScenario (inr "stok")
              (fun n => match n with O => refused | _ => granted end)
              [] [mkReturnType "doc-1" true]).

(** The service rejects the delete (stale version). *)
Definition staleVersion : World :=
  scripted (mkScenario (inr "stok") (fun _ => granted) [] [mkReturnType "doc-1" false]).

(** The item exists and has no blob reference. *)
Definition noBlob : World :=
  scripted (mkScenario (inr "stok") (fun _ => granted)
              [mkItemResponse "doc-1" 3 "Report" None None] []).

Definition pairing : RegisterArgs := mkRegisterArgs "ABC123" None None.

(** The instance after a successful [register], and the log so far. *)
Definition paired (w : World) : Remarkable * list Effect :=
  calls w [CallRegister pairing] (constructor w None) [].

Definition pdfBytes : Buffer := bytes_of_string "%PDF-1.4".

(** ** How a call may change the session fields *)

(** The session token, once assigned, stays assigned; a cached endpoint is
    never replaced; and an endpoint is only ever cached on an instance that
    holds a session token. *)
Record evolves (s s' : Remarkable) : Prop := mkEvolves {
  ev_token : is_Some (token s) → is_Some (token s');
  ev_storage_kept : truthy (storageUrl s) = true → storageUrl s' = storageUrl s;
  ev_notification_kept :
    truthy (notificationUrl s) = true → notificationUrl s' = notificationUrl s;
  ev_storage_set : storageUrl s' ≠ storageUrl s → is_Some (token s');
  ev_notification_set : notificationUrl s' ≠ notificationUrl s → is_Some (token s');
}.

Definition preserves {A : Type} (m : Async A) : Prop :=
  ∀ s tr, evolves s (m s tr).1.2.

(** The invariant of the session fields: a cached endpoint comes with a
    session token. *)
Definition sessionInvariant (s : Remarkable) : Prop :=
  is_Some (storageUrl s) ∨ is_Some (notificationUrl s) → is_Some (token s).

(** The stream requests of a log. *)
Definition isStream (e : Effect) : bool :=
  match e with OpenStream _ => true | _ => false end.

(** The three entries [uploadPDF] files under the document id [ID], added to
    the entries [z] the instance's archive already holds. *)
Definition package (ID : string) (file : Buffer) (z : gmap string ZipData)
  : gmap string ZipData :=
  <[ID +:+ ".pdf" := ZBuffer file]>
    (<[ID +:+ ".pagedata" := ZArray []]>
       (<[ID +:+ ".content" := ZText (stringify defaultPDFContent)]> z)).

Definition keeps_zip {A : Type} (m : Async A) : Prop :=
  ∀ s tr, zip (m s tr).1.2 = zip s.

(** ** Footprints and further invariants *)

(** A computation whose final instance is related by [R] to the instance it
    started from, whatever the log and the outcome. *)
Definition respects (R : Remarkable → Remarkable → Prop) {A : Type} (m : Async A) : Prop :=
  ∀ s tr, R s (m s tr).1.2.

(** The field [f] is left as it was. *)
Definition unchanged {B : Type} (f : Remarkable → B) (s s' : Remarkable) : Prop :=
  f s' = f s.

(** The property [I] survives. *)
Definition maintains (I : Remarkable → Prop) (s s' : Remarkable) : Prop :=
  I s → I s'.

(** The headers of [this.gotClient] are the configured ones plus the bearer of
    the session token, when there is one. *)
Definition clientInvariant (w : World) (s : Remarkable) : Prop :=
  gotClient s
  = mkHeaders (Some (userAgent w)) (String.append "Bearer " <$> token s) None.

(** A cached endpoint is the scheme followed by the host of a discovery
    answer. *)
Definition endpointsWellFormed (s : Remarkable) : Prop :=
  (∀ u, storageUrl s = Some u → ∃ h, u = "https://" +:+ h) ∧
  (∀ u, notificationUrl s = Some u → ∃ h, u = "wss://" +:+ h).

(** The calls that exchange credentials. *)
Definition exchangesCredentials (op : Op) : bool :=
  match op with
  | CallRefreshToken | CallRegister _ => true
  | _ => false
  end.

(** A [register] that gets past its check of the pairing code. *)
Definition registersDevice (op : Op) : bool :=
  match op with
  | CallRegister a => truthy (Some (reg_code a))
  | _ => false
  end.

Definition isUploadPDF (op : Op) : bool :=
  match op with CallUploadPDF _ _ => true | _ => false end.

Definition isGetStorageUrl (op : Op) : bool :=
  match op with CallGetStorageUrl _ => true | _ => false end.

Definition isGetNotificationsUrl (op : Op) : bool :=
  match op with CallGetNotificationsUrl _ => true | _ => false end.

(** The methods that test [this.token] themselves, before anything else. *)
Definition checksToken (op : Op) : bool :=
  match op with
  | CallListItems _ _ | CallGetItemWithId _ | CallGetAllItems
  | CallDownloadZip _ | CallUploadZip _ _ _ | CallUploadPDF _ _ => true
  | _ => false
  end.

(** ** Further scripted collaborators *)

Definition withPostText (f : list Effect → Request → string + string) (w : World) : World :=
  mkWorld (pkgVersion w) (generateDeviceId w) (moduleLoadedAt w)
    (queryString_stringify w) (uuidv4 w) (toISOString w) (generateAsync w)
    f (getHost w) (getItems w) (putReturn w) (putUploadRequest w) (putBlob w)
    (readStream w).

Definition withHost (f : list Effect → Request → string + ServiceBody) (w : World) : World :=
  mkWorld (pkgVersion w) (generateDeviceId w) (moduleLoadedAt w)
    (queryString_stringify w) (uuidv4 w) (toISOString w) (generateAsync w)
    (postText w) f (getItems w) (putReturn w) (putUploadRequest w) (putBlob w)
    (readStream w).

Definition withBlobStatus (f : list Effect → Request → string + Z) (w : World) : World :=
  mkWorld (pkgVersion w) (generateDeviceId w) (moduleLoadedAt w)
    (queryString_stringify w) (uuidv4 w) (toISOString w) (generateAsync w)
    (postText w) (getHost w) (getItems w) (putReturn w) (putUploadRequest w) f
    (readStream w).

Definition withStream (f : list Effect → string → option (list Buffer)) (w : World) : World :=
  mkWorld (pkgVersion w) (generateDeviceId w) (moduleLoadedAt w)
    (queryString_stringify w) (uuidv4 w) (toISOString w) (generateAsync w)
    (postText w) (getHost w) (getItems w) (putReturn w) (putUploadRequest w)
    (putBlob w) f.

Definition isRefresh (e : Effect) : bool :=
  match e with
  | Http r => String.eqb (url r) "https://my.remarkable.com/token/json/2/user/new"
  | _ => false
  end.

Definition isDiscovery (e : Effect) : bool :=
  match e with
  | Http r => match method r with GET => true | _ => false end
  | _ => false
  end.

(** The service answers its arrays empty. *)
Definition emptyAnswers : World :=
  scripted (mkScenario (inr "stok") (fun _ => []) [] []).

(** The session token comes back as the empty string. *)
Definition emptySession : World :=
  scripted (mkScenario (inr EmptyString) (fun _ => granted) [] []).

(** The first refresh yields [stok], the later ones the empty string. *)
Definition lapsing : World :=
  withPostText
    (fun tr r =>
       if String.eqb (url r) "https://my.remarkable.com/token/json/2/device/new"
       then inr "dtok"
       else if existsb isRefresh tr then inr EmptyString else inr "stok")
    sunny.

(** The first discovery times out, the later ones are answered. *)
Definition flakyDiscovery : World :=
  withHost
    (fun tr r =>
       if existsb isDiscovery tr then inr (mkServiceBody "host.example" "OK")
       else inl "ETIMEDOUT")
    sunny.

(** The blob store answers the transfer with 204. *)
Definition partialTransfer : World := withBlobStatus (fun _ _ => inr 204) sunny.

(** Two items are listed; the first has a blob reference. *)
Definition withBlobItem : World :=
  scripted (mkScenario (inr "stok") (fun _ => granted)
              [mkItemResponse "doc-1" 3 "Report" (Some "https://blob.example/get") None;
               mkItemResponse "doc-2" 1 "Other" (Some "https://blob.example/other") None]
              []).

(** The blob stream never signals its end. *)
Definition stalled : World := withStream (fun _ _ => None) withBlobItem.

(** ** The requests of the class, by name *)

Definition registerRequest (w : World) (a : RegisterArgs) : Request :=
  {| method := POST;
     url := "https://my.remarkable.com/token/json/2/device/new";
     headers := mkHeaders None None None;
     payload := RegisterJson (reg_code a)
                  (default "desktop-windows" (reg_deviceDesc a))
                  (default (generateDeviceId w) (reg_deviceId a)) |}.

Definition refreshRequest (w : World) (device : option string) : Request :=
  {| method := POST;
     url := "https://my.remarkable.com/token/json/2/user/new";
     headers := mkHeaders (Some (userAgent w))
                  (Some ("Bearer " +:+ interpolate device)) None;
     payload := NoBody |}.

Definition discoveryRequest (service : string) (dflt : Z) (o : UrlOptions) (h : Headers)
  : Request :=
  mkRequest GET (discovery service dflt o) h NoBody.

Definition deleteRequest (base : string) (h : Headers) (id : string) (version : Z)
  : Request :=
  mkRequest PUT (base +:+ "/document-storage/json/2/delete") h (DeleteJson id version).

Definition uploadRequest (base : string) (h : Headers) (ID : string) : Request :=
  mkRequest PUT (base +:+ "/document-storage/json/2/upload/request") h
    (UploadRequestJson ID DocumentType 1).

Definition transferRequest (w : World) (blobURLPut : string) (tok : option string)
  (zipFile : Buffer) : Request :=
  mkRequest PUT blobURLPut
    (mkHeaders (Some (userAgent w)) (Some ("Bearer " +:+ interpolate tok))
       (Some EmptyString))
    (RawBody zipFile).

Definition updateStatusRequest (base : string) (h : Headers) (name ID : string)
  (lastModified modifiedClient : string) : Request :=
  mkRequest PUT (base +:+ "/document-storage/json/2/upload/update-status") h
    (UpdateStatusJson
       {| md_deleted := false;
          md_lastModified := lastModified;
          md_ModifiedClient := modifiedClient;
          md_metadatamodified := false;
          md_modified := false;
          md_parent := EmptyString;
          md_pinned := false;
          md_synced := true;
          md_type := DocumentType;
          md_version := 1;
          md_VissibleName := name;
          md_ID := Some ID |}).

(** An instance whose endpoint was cached under a session token that a
    later refresh replaced by the empty string. *)
Definition lapsed : Remarkable * list Effect :=
  calls lapsing [CallRegister pairing; CallGetStorageUrl noOptions; CallRefreshToken]
    (constructor lapsing None) [].

(** * Properties *)

Ltac async :=
  unfold bind, this, ret, throw, assign, await, draw, collect, zip_file in *.

Lemma truthy_Some (v : option string) :
  truthy v = true → v = Some (interpolate v) ∧ is_Some v.
Proof. destruct v as [[|c r]|]; simpl; intros H; try discriminate; eauto. Qed.

Lemma truthy_is_Some (v : option string) : truthy v = true → is_Some v.
Proof. intros H. by apply truthy_Some. Qed.

Lemma evolves_refl (s : Remarkable) : evolves s s.
Proof. by constructor. Qed.

Lemma evolves_trans (s1 s2 s3 : Remarkable) :
  evolves s1 s2 → evolves s2 s3 → evolves s1 s3.
Proof.
  intros [T1 K1 N1 S1 M1] [T2 K2 N2 S2 M2]. constructor.
  - auto.
  - intros H. rewrite <- (K1 H). apply K2. by rewrite (K1 H).
  - intros H. rewrite <- (N1 H). apply N2. by rewrite (N1 H).
  - intros H. destruct (decide (storageUrl s3 = storageUrl s2)) as [E|E]; [|auto].
    apply T2, S1. congruence.
  - intros H. destruct (decide (notificationUrl s3 = notificationUrl s2)) as [E|E]; [|auto].
    apply T2, M1. congruence.
Qed.

Lemma evolves_invariant (s s' : Remarkable) :
  evolves s s' → sessionInvariant s → sessionInvariant s'.
Proof.
  intros [T K N S M] I [H|H].
  - destruct (decide (storageUrl s' = storageUrl s)) as [E|E]; [|auto].
    apply T, I. left. by rewrite <- E.
  - destruct (decide (notificationUrl s' = notificationUrl s)) as [E|E]; [|auto].
    apply T, I. right. by rewrite <- E.
Qed.

Section Frames.

Variable w : World.

Lemma preserves_ret {A} (a : A) : preserves (ret a).
Proof. intros s tr. apply evolves_refl. Qed.

Lemma preserves_throw {A} (e : Exn) : preserves (@throw A e).
Proof. intros s tr. apply evolves_refl. Qed.

Lemma preserves_this : preserves this.
Proof. intros s tr. apply evolves_refl. Qed.

Lemma preserves_await {A} (oracle : list Effect → Request → string + A) r :
  preserves (await oracle r).
Proof. intros s tr. unfold await. destruct (oracle tr r); apply evolves_refl. Qed.

Lemma preserves_draw {A} (oracle : list Effect → A) e : preserves (draw oracle e).
Proof. intros s tr. apply evolves_refl. Qed.

Lemma preserves_collect u : preserves (collect w u).
Proof. intros s tr. unfold collect. destruct (readStream w tr u); apply evolves_refl. Qed.

Lemma preserves_bind {A B} (m : Async A) (k : A → Async B) :
  preserves m → (∀ a, preserves (k a)) → preserves (bind m k).
Proof.
  intros Hm Hk s tr. unfold bind. specialize (Hm s tr).
  destruct (m s tr) as [[[a|e|] s'] tr']; simpl in *; try done.
  eapply evolves_trans; [exact Hm | apply Hk].
Qed.

Lemma preserves_if {A} (b : bool) (m1 m2 : Async A) :
  preserves m1 → preserves m2 → preserves (if b then m1 else m2).
Proof. by destruct b. Qed.

Lemma preserves_zip (f : Remarkable → gmap string ZipData) :
  preserves (assign (fun s => with_zip (f s) s)).
Proof. intros s tr. by constructor. Qed.

Lemma preserves_deviceToken v : preserves (assign (with_deviceToken v)).
Proof. intros s tr. by constructor. Qed.

Lemma preserves_setToken tok : preserves (setToken w tok).
Proof. intros s tr. constructor; simpl; eauto; done. Qed.

Lemma preserves_getStorageUrl o : preserves (getStorageUrl w o).
Proof.
  intros s tr. unfold getStorageUrl. async.
  destruct (truthy (storageUrl s)) eqn:C; [apply evolves_refl|].
  destruct (truthy (token s)) eqn:T; simpl; [|apply evolves_refl].
  destruct (getHost w tr _); simpl; [apply evolves_refl|].
  apply truthy_is_Some in T. constructor; simpl; auto; congruence.
Qed.

Lemma preserves_getNotificationsUrl o : preserves (getNotificationsUrl w o).
Proof.
  intros s tr. unfold getNotificationsUrl. async.
  destruct (truthy (notificationUrl s)) eqn:C; [apply evolves_refl|].
  destruct (truthy (token s)) eqn:T; simpl; [|apply evolves_refl].
  destruct (getHost w tr _); simpl; [apply evolves_refl|].
  apply truthy_is_Some in T. constructor; simpl; auto; congruence.
Qed.

Create HintDb frames.
Hint Resolve preserves_ret preserves_throw preserves_this preserves_await
  preserves_draw preserves_collect preserves_zip preserves_deviceToken
  preserves_setToken preserves_getStorageUrl preserves_getNotificationsUrl : frames.

Ltac frame :=
  repeat first
    [ progress eauto with frames
    | apply preserves_bind; [|intros ?]
    | apply preserves_if
    | match goal with |- preserves (match ?x with _ => _ end) => destruct x end ].

Lemma preserves_refreshToken : preserves (refreshToken w).
Proof. unfold refreshToken. frame. Qed.
Hint Resolve preserves_refreshToken : frames.

Lemma preserves_register a : preserves (register w a).
Proof. unfold register. frame. Qed.

Lemma preserves_listItems doc withBlob : preserves (listItems w doc withBlob).
Proof. unfold listItems. frame. Qed.
Hint Resolve preserves_listItems : frames.

Lemma preserves_getItemWithId id : preserves (getItemWithId w id).
Proof. unfold getItemWithId. frame. Qed.
Hint Resolve preserves_getItemWithId : frames.

Lemma preserves_deleteItem id version : preserves (deleteItem w id version).
Proof. unfold deleteItem. frame. Qed.

Lemma preserves_downloadZip id : preserves (downloadZip w id).
Proof. unfold downloadZip. frame. Qed.

Lemma preserves_uploadZip name ID zipFile : preserves (uploadZip w name ID zipFile).
Proof. unfold uploadZip. frame. Qed.
Hint Resolve preserves_uploadZip : frames.

Lemma preserves_uploadPDF name file : preserves (uploadPDF w name file).
Proof.
  unfold uploadPDF, zip_file. frame.
Qed.

Hint Resolve preserves_register preserves_deleteItem preserves_downloadZip
  preserves_uploadPDF : frames.

Lemma preserves_call op : preserves (call w op).
Proof. destruct op; simpl; unfold getAllItems; frame. Qed.

Lemma calls_evolves ops s tr : evolves s (calls w ops s tr).1.
Proof.
  revert s tr. induction ops as [|op ops IH]; intros s tr; simpl.
  - apply evolves_refl.
  - pose proof (preserves_call op s tr) as H.
    destruct (call w op s tr) as [[o s'] tr']. simpl in H.
    eapply evolves_trans; [exact H | apply IH].
Qed.

Lemma constructor_invariant props : sessionInvariant (constructor w props).
Proof. intros [[? H]|[? H]]; discriminate. Qed.

Lemma calls_invariant props ops :
  sessionInvariant (calls w ops (constructor w props) []).1.
Proof.
  eapply evolves_invariant; [apply calls_evolves | apply constructor_invariant].
Qed.

End Frames.

(** ** Session and endpoints *)

Lemma unset_token_no_endpoint (s : Remarkable) :
  sessionInvariant s → token s = None →
  storageUrl s = None ∧ notificationUrl s = None.
Proof.
  intros I T. unfold sessionInvariant in I. rewrite T in I.
  destruct (storageUrl s) eqn:E1, (notificationUrl s) eqn:E2; try done;
    exfalso; eapply is_Some_None; apply I; eauto.
Qed.

(** C9: the session fields keep the invariant "a cached storage or
    notification endpoint comes with an assigned session token": the
    constructor establishes it, every method preserves it whatever its
    outcome, and so after any sequence of calls on a new instance an endpoint
    is cached only if a session token has been assigned. *)
Theorem endpoint_cached_only_with_token (w : World) :
  (∀ props, sessionInvariant (constructor w props)) ∧
  (∀ op s tr, sessionInvariant s → sessionInvariant (call w op s tr).1.2) ∧
  (∀ props ops s tr,
     calls w ops (constructor w props) [] = (s, tr) →
     is_Some (storageUrl s) ∨ is_Some (notificationUrl s) →
     is_Some (token s)).
Proof.
  split; [apply constructor_invariant|]. split.
  - intros op s tr I. eapply evolves_invariant; [apply preserves_call | exact I].
  - intros props ops s tr E. pose proof (calls_invariant w props ops) as I.
    by rewrite E in I.
Qed.

Lemma endpoint_cached_only_with_token_witness :
  is_Some (token (calls sunny [CallRegister pairing; CallGetNotificationsUrl noOptions]
                    (constructor sunny None) []).1).
Proof.
  destruct (endpoint_cached_only_with_token sunny) as (_ & _ & H).
  eapply (H None [CallRegister pairing; CallGetNotificationsUrl noOptions]).
  - reflexivity.
  - right. vm_compute. eexists. reflexivity.
Defined.

(** C3: on an instance on which no [refreshToken()] has succeeded (its
    session token is unset), each of [listItems], [getItemWithId],
    [getAllItems], [deleteItem], [downloadZip], [uploadZip], [uploadPDF],
    [getStorageUrl] and [getNotificationsUrl] is rejected with the
    authentication error, and neither the instance nor the log of requests
    changes. *)
Theorem unauthenticated_call_rejected
  (w : World) (props : option string) (ops : list Op) (op : Op)
  (s : Remarkable) (tr : list Effect) :
  calls w ops (constructor w props) [] = (s, tr) →
  token s = None →
  requiresAuthorization op = true →
  call w op s tr = (Rejected AuthenticationRequiredError, s, tr).
Proof.
  intros E T R. pose proof (calls_invariant w props ops) as I. rewrite E in I.
  destruct (unset_token_no_endpoint s I T) as [U N].
  destruct op; try discriminate R; simpl;
    unfold getAllItems, getItemWithId, listItems, deleteItem, downloadZip,
      getItemWithId, listItems, uploadZip, uploadPDF, getStorageUrl,
      getNotificationsUrl; async;
    rewrite ?T, ?U, ?N; simpl; rewrite ?T; reflexivity.
Qed.

Lemma unauthenticated_call_rejected_witness :
  call sunny (CallDeleteItem "doc-1" 3) (constructor sunny None) []
  = (Rejected AuthenticationRequiredError, constructor sunny None, []).
Proof.
  apply (unauthenticated_call_rejected sunny None
           [CallGetAllItems; CallRefreshToken] (CallDeleteItem "doc-1" 3));
    reflexivity.
Defined.

Lemma getStorageUrl_resolved w o s tr u s1 tr1 :
  getStorageUrl w o s tr = (Resolved u, s1, tr1) →
  storageUrl s1 = Some u ∧ truthy (storageUrl s1) = true.
Proof.
  unfold getStorageUrl. async.
  destruct (truthy (storageUrl s)) eqn:C.
  - intros [= <- <- <-]. destruct (truthy_Some _ C) as [E _]. by rewrite <- E.
  - destruct (truthy (token s)); simpl; [|discriminate].
    destruct (getHost w tr _); simpl; [discriminate|].
    intros [= <- <- <-]. done.
Qed.

Lemma getNotificationsUrl_resolved w o s tr u s1 tr1 :
  getNotificationsUrl w o s tr = (Resolved u, s1, tr1) →
  notificationUrl s1 = Some u ∧ truthy (notificationUrl s1) = true.
Proof.
  unfold getNotificationsUrl. async.
  destruct (truthy (notificationUrl s)) eqn:C.
  - intros [= <- <- <-]. destruct (truthy_Some _ C) as [E _]. by rewrite <- E.
  - destruct (truthy (token s)); simpl; [|discriminate].
    destruct (getHost w tr _); simpl; [discriminate|].
    intros [= <- <- <-]. done.
Qed.

(** C4: once [getStorageUrl] (respectively [getNotificationsUrl]) has
    resolved to an endpoint, a later call on the same instance resolves to
    the identical value and issues no request, whatever calls were made in
    between ([refreshToken] included) and whatever options it is given. *)
Theorem endpoint_resolved_once (w : World) :
  (∀ o o' ops s tr u s1 tr1 s2 tr2,
     getStorageUrl w o s tr = (Resolved u, s1, tr1) →
     calls w ops s1 tr1 = (s2, tr2) →
     getStorageUrl w o' s2 tr2 = (Resolved u, s2, tr2)) ∧
  (∀ o o' ops s tr u s1 tr1 s2 tr2,
     getNotificationsUrl w o s tr = (Resolved u, s1, tr1) →
     calls w ops s1 tr1 = (s2, tr2) →
     getNotificationsUrl w o' s2 tr2 = (Resolved u, s2, tr2)).
Proof.
  split; intros o o' ops s tr u s1 tr1 s2 tr2 G C;
    pose proof (calls_evolves w ops s1 tr1) as E; rewrite C in E; simpl in E.
  - destruct (getStorageUrl_resolved _ _ _ _ _ _ _ G) as [S T].
    pose proof (ev_storage_kept _ _ E T) as K. rewrite S in K.
    unfold getStorageUrl. async. by rewrite K, <- S, T, S.
  - destruct (getNotificationsUrl_resolved _ _ _ _ _ _ _ G) as [S T].
    pose proof (ev_notification_kept _ _ E T) as K. rewrite S in K.
    unfold getNotificationsUrl. async. by rewrite K, <- S, T, S.
Qed.

Lemma endpoint_resolved_once_witness :
  ∃ s2 tr2,
    calls sunny [CallRegister pairing; CallGetStorageUrl noOptions; CallRefreshToken]
      (constructor sunny None) [] = (s2, tr2) ∧
    getStorageUrl sunny (mkUrlOptions (Some "staging") None None) s2 tr2
    = (Resolved "https://host.example", s2, tr2).
Proof.
  eexists _, _. split; [vm_compute; reflexivity|].
  eapply (proj1 (endpoint_resolved_once sunny)) with
    (o := noOptions) (ops := [CallRefreshToken])
    (s := (paired sunny).1) (tr := (paired sunny).2);
    vm_compute; reflexivity.
Defined.

(** ** Registration *)

(** C5: when the registration request is answered with a device token and
    the refresh that follows is rejected, [register] is rejected with the
    same error and the device token stays stored on the instance. *)
Theorem register_keeps_device_token
  (w : World) (a : RegisterArgs) (s s2 : Remarkable) (tr tr2 : list Effect)
  (body : string) (e : Exn) :
  let req :=
    {| method := POST;
       url := "https://my.remarkable.com/token/json/2/device/new";
       headers := mkHeaders None None None;
       payload := RegisterJson (reg_code a)
                    (default "desktop-windows" (reg_deviceDesc a))
                    (default (generateDeviceId w) (reg_deviceId a)) |} in
  reg_code a ≠ EmptyString →
  postText w tr req = inr body →
  refreshToken w (with_deviceToken (Some body) s) (tr ++ [Http req]) = (Rejected e, s2, tr2) →
  register w a s tr = (Rejected e, s2, tr2) ∧ deviceToken s2 = Some body.
Proof.
  intros req C P R. split.
  - unfold register. destruct (reg_code a) eqn:Ec; [done|]. simpl.
    async. fold req. rewrite P. simpl. by rewrite R.
  - revert R. unfold refreshToken, setToken. async.
    destruct body as [|c b]; simpl; [by intros [= _ <- _]|].
    match goal with |- context [postText w ?t ?q] => destruct (postText w t q) end;
      simpl; [by intros [= _ <- _]|discriminate].
Qed.

Lemma register_keeps_device_token_witness :
  ∃ s2 tr2,
    register noSession pairing (constructor noSession None) []
    = (Rejected (GotError "HTTPError 500"), s2, tr2)
    ∧ deviceToken s2 = Some "dtok".
Proof.
  eexists _, _.
  eapply (register_keeps_device_token noSession pairing (constructor noSession None)).
  - discriminate.
  - reflexivity.
  - vm_compute. reflexivity.
Defined.

(** ** Document directory *)

(** C6: [deleteItem] resolves to the [Success] flag of the first per-item
    result the service answers with; when the service rejects the delete
    (a stale version: [Success] is [false]) it resolves to [false] and is not
    rejected. *)
Theorem deleteItem_returns_success_flag
  (w : World) (id : string) (version : Z) (s s1 : Remarkable) (tr tr1 : list Effect)
  (base : string) (r : ReturnType) (rest : list ReturnType) :
  let req :=
    mkRequest PUT (base +:+ "/document-storage/json/2/delete")
      (gotClient s1) (DeleteJson id version) in
  getStorageUrl w noOptions s tr = (Resolved base, s1, tr1) →
  putReturn w tr1 req = inr (r :: rest) →
  deleteItem w id version s tr = (Resolved (ret_Success r), s1, tr1 ++ [Http req]) ∧
  (ret_Success r = false →
   deleteItem w id version s tr = (Resolved false, s1, tr1 ++ [Http req])).
Proof.
  intros req G P.
  assert (deleteItem w id version s tr
          = (Resolved (ret_Success r), s1, tr1 ++ [Http req])) as D.
  { unfold deleteItem. unfold bind at 1. rewrite G. async. fold req. by rewrite P. }
  split; [exact D|]. intros F. by rewrite D, F.
Qed.

Lemma deleteItem_returns_success_flag_witness :
  ∃ s1 tr1,
    deleteItem staleVersion "doc-1" 2 (paired staleVersion).1 (paired staleVersion).2
    = (Resolved false, s1, tr1).
Proof.
  eexists _, _.
  refine (proj2 (deleteItem_returns_success_flag staleVersion "doc-1" 2
                   (paired staleVersion).1 _ (paired staleVersion).2 _ _
                   (mkReturnType "doc-1" false) [] _ _) _).
  - vm_compute. reflexivity.
  - vm_compute. reflexivity.
  - reflexivity.
Defined.

Lemma getStorageUrl_streams w o s tr out s1 tr1 :
  getStorageUrl w o s tr = (out, s1, tr1) →
  List.filter isStream tr1 = List.filter isStream tr.
Proof.
  unfold getStorageUrl. async. intros H.
  repeat case_match; simplify_eq; rewrite ?List.filter_app; simpl;
    by rewrite ?app_nil_r.
Qed.

Lemma listItems_streams w doc withBlob s tr out s1 tr1 :
  listItems w doc withBlob s tr = (out, s1, tr1) →
  List.filter isStream tr1 = List.filter isStream tr.
Proof.
  unfold listItems. async.
  destruct (truthy (token s)); simpl; [|by intros [= _ _ <-]].
  destruct (getStorageUrl w noOptions s tr) as [[o' s'] tr'] eqn:G.
  apply getStorageUrl_streams in G. rewrite <- G. intros H.
  repeat case_match; simplify_eq; rewrite ?List.filter_app; simpl;
    by rewrite ?app_nil_r.
Qed.

Lemma listItems_resolved_token w doc withBlob s tr l s1 tr1 :
  listItems w doc withBlob s tr = (Resolved l, s1, tr1) → truthy (token s) = true.
Proof.
  unfold listItems. async. by destruct (truthy (token s)).
Qed.

(** ** Download *)

(** C7: when the directory answers with an item record whose [BlobURLGet]
    is absent (or empty), [downloadZip] is rejected with the blob-not-found
    error, and the log holds no stream request beyond those it held before
    the call: the stream is never opened. *)
Theorem downloadZip_without_blob_reference
  (w : World) (id : string) (s s1 : Remarkable) (tr tr1 : list Effect)
  (item : ItemResponse) (rest : list ItemResponse) :
  listItems w (Some id) None s tr = (Resolved (item :: rest), s1, tr1) →
  truthy (item_BlobURLGet item) = false →
  downloadZip w id s tr = (Rejected BlobNotFoundError, s1, tr1) ∧
  List.filter isStream tr1 = List.filter isStream tr.
Proof.
  intros L B. split; [|by eapply listItems_streams].
  pose proof (listItems_resolved_token _ _ _ _ _ _ _ _ L) as T.
  unfold downloadZip, getItemWithId. unfold bind at 1, this. rewrite T. simpl.
  unfold bind. rewrite L. simpl. unfold ret. simpl. by rewrite B.
Qed.

Lemma downloadZip_without_blob_reference_witness :
  ∃ s1 tr1,
    downloadZip noBlob "doc-1" (paired noBlob).1 (paired noBlob).2
    = (Rejected BlobNotFoundError, s1, tr1)
    ∧ List.filter isStream tr1 = [].
Proof.
  eexists _, _.
  refine (downloadZip_without_blob_reference noBlob "doc-1"
            (paired noBlob).1 _ (paired noBlob).2 _
            (mkItemResponse "doc-1" 3 "Report" None None) [] _ _).
  - vm_compute. reflexivity.
  - reflexivity.
Defined.

(** C10: when the directory answers a query by id with an empty result
    set, [getItemWithId] resolves to [undefined], and [downloadZip] with that
    id is rejected with the type error of destructuring [undefined], which is
    not the blob-not-found error; no stream is opened. *)
Theorem downloadZip_of_missing_item
  (w : World) (id : string) (s s1 : Remarkable) (tr tr1 : list Effect) :
  listItems w (Some id) None s tr = (Resolved [], s1, tr1) →
  getItemWithId w id s tr = (Resolved None, s1, tr1) ∧
  downloadZip w id s tr = (Rejected (TypeError "BlobURLGet"), s1, tr1) ∧
  TypeError "BlobURLGet" ≠ BlobNotFoundError ∧
  List.filter isStream tr1 = List.filter isStream tr.
Proof.
  intros L.
  assert (getItemWithId w id s tr = (Resolved None, s1, tr1)) as G.
  { unfold getItemWithId, bind. by rewrite L. }
  split; [exact G|]. split; [|split; [discriminate | by eapply listItems_streams]].
  pose proof (listItems_resolved_token _ _ _ _ _ _ _ _ L) as T.
  unfold downloadZip. unfold bind at 1, this. rewrite T. simpl.
  unfold bind. by rewrite G.
Qed.

Lemma downloadZip_of_missing_item_witness :
  ∃ s1 tr1,
    downloadZip sunny "doc-9" (paired sunny).1 (paired sunny).2
    = (Rejected (TypeError "BlobURLGet"), s1, tr1).
Proof.
  eexists _, _.
  refine (proj1 (proj2 (downloadZip_of_missing_item sunny "doc-9"
                          (paired sunny).1 _ (paired sunny).2 _ _))).
  vm_compute. reflexivity.
Defined.

(** ** Upload *)

(** C1: when the answer to the upload request marks failure or carries no
    write URL, [uploadZip] is rejected with the upload-request error and the
    log ends with the upload request: neither the transfer nor the
    update-status request is issued. *)
Theorem uploadZip_refused_request_stops
  (w : World) (name ID : string) (zipFile : Buffer) (s s1 : Remarkable)
  (tr tr1 : list Effect) (base : string)
  (r : UploadRequestReturnType) (rest : list UploadRequestReturnType) :
  let req :=
    mkRequest PUT (base +:+ "/document-storage/json/2/upload/request")
      (gotClient s1) (UploadRequestJson ID DocumentType 1) in
  truthy (token s) = true →
  getStorageUrl w noOptions s tr = (Resolved base, s1, tr1) →
  putUploadRequest w tr1 req = inr (r :: rest) →
  upl_Success r = false ∨ truthy (upl_BlobURLPut r) = false →
  uploadZip w name ID zipFile s tr = (Rejected UploadRequestError, s1, tr1 ++ [Http req]).
Proof.
  intros req T G P F.
  unfold uploadZip. unfold bind at 1, this. rewrite T. simpl.
  unfold bind at 1. rewrite G. unfold bind at 1, this.
  unfold bind at 1, await. fold req. rewrite P.
  assert (negb (upl_Success r) || negb (truthy (upl_BlobURLPut r)) = true) as ->; [|done].
  destruct F as [-> | ->]; [done | apply orb_true_r].
Qed.

Lemma uploadZip_refused_request_stops_witness :
  ∃ s1 tr1,
    uploadZip refusedOnce "Report" "doc-1" pdfBytes
      (paired refusedOnce).1 (paired refusedOnce).2
    = (Rejected UploadRequestError, s1, tr1)
    ∧ last tr1
      = Some (Http (mkRequest PUT
                      "https://host.example/document-storage/json/2/upload/request"
                      (mkHeaders (Some "remarkable-typescript/1.0.0")
                         (Some "Bearer stok") None)
                      (UploadRequestJson "doc-1" DocumentType 1))).
Proof.
  eexists _, _. split.
  - refine (uploadZip_refused_request_stops refusedOnce "Report" "doc-1" pdfBytes
              (paired refusedOnce).1 _ (paired refusedOnce).2 _ _
              (mkUploadRequestReturnType false None) [] _ _ _ _).
    + reflexivity.
    + vm_compute. reflexivity.
    + vm_compute. reflexivity.
    + left. reflexivity.
  - vm_compute. reflexivity.
Defined.

(** ** Packaging *)

Section Archive.

Variable w : World.

Lemma keeps_zip_bind {A B} (m : Async A) (k : A → Async B) :
  keeps_zip m → (∀ a, keeps_zip (k a)) → keeps_zip (bind m k).
Proof.
  intros Hm Hk s tr. unfold bind. specialize (Hm s tr).
  destruct (m s tr) as [[[a|e|] s'] tr']; simpl in *; try done.
  by rewrite Hk.
Qed.

Lemma keeps_zip_await {A} (oracle : list Effect → Request → string + A) r :
  keeps_zip (await oracle r).
Proof. intros s tr. unfold await. by destruct (oracle tr r). Qed.

Lemma keeps_zip_getStorageUrl o : keeps_zip (getStorageUrl w o).
Proof.
  intros s tr. unfold getStorageUrl. async.
  destruct (truthy (storageUrl s)); [done|].
  destruct (truthy (token s)); simpl; [|done].
  by destruct (getHost w tr _).
Qed.

Lemma keeps_zip_uploadZip name ID zipFile : keeps_zip (uploadZip w name ID zipFile).
Proof.
  unfold uploadZip.
  repeat first
    [ apply keeps_zip_getStorageUrl
    | apply keeps_zip_await
    | apply keeps_zip_bind; [|intros ?]
    | match goal with
      | |- keeps_zip (if ?b then _ else _) => destruct b
      | |- keeps_zip (match ?x with _ => _ end) => destruct x
      end
    | done ].
Qed.

(** [uploadPDF] on an instance that holds a session token: the document id
    is drawn, the three entries are filed into the instance's archive, the
    archive is serialised and handed to [uploadZip]; the id is returned and
    the archive replaced by a new one when [uploadZip] resolves, and a
    rejection of [uploadZip] is the rejection of [uploadPDF]. *)
Lemma uploadPDF_steps name file s tr :
  truthy (token s) = true →
  uploadPDF w name file s tr =
  let ID := uuidv4 w tr in
  let pkg := package ID file (zip s) in
  match uploadZip w name ID (generateAsync w pkg) (with_zip pkg s) (tr ++ [DrawUuid]) with
  | (Resolved _, s', tr') => (Resolved ID, with_zip ∅ s', tr')
  | (Rejected e, s', tr') => (Rejected e, s', tr')
  | (Pending, s', tr') => (Pending, s', tr')
  end.
Proof.
  intros T. unfold uploadPDF. unfold bind at 1, this. rewrite T. simpl.
  async. simpl. unfold package, with_zip. simpl.
  by destruct (uploadZip w _ _ _ _ _) as [[[?|?|] ?] ?].
Qed.

Lemma uploadPDF_rejected_zip name file s tr e s' tr' :
  truthy (token s) = true →
  uploadPDF w name file s tr = (Rejected e, s', tr') →
  zip s' = package (uuidv4 w tr) file (zip s).
Proof.
  intros T. rewrite (uploadPDF_steps _ _ _ _ T). simpl.
  pose proof (keeps_zip_uploadZip name (uuidv4 w tr)
                (generateAsync w (package (uuidv4 w tr) file (zip s)))
                (with_zip (package (uuidv4 w tr) file (zip s)) s)
                (tr ++ [DrawUuid])) as K.
  destruct (uploadZip w _ _ _ _ _) as [[[?|?|] ?] ?]; simpl in K;
    intros [= <- <- <-]. exact K.
Qed.

End Archive.

Lemma append_inj (a x y : string) : a +:+ x = a +:+ y → x = y.
Proof. induction a as [|c a IH]; simpl; [done|]. intros [= H]. auto. Qed.

(** From an empty archive the package holds exactly the three entries. *)
Lemma package_empty (ID : string) (file : Buffer) :
  size (package ID file ∅) = 3%nat ∧
  package ID file ∅ !! (ID +:+ ".content") = Some (ZText (stringify defaultPDFContent)) ∧
  package ID file ∅ !! (ID +:+ ".pagedata") = Some (ZArray []) ∧
  package ID file ∅ !! (ID +:+ ".pdf") = Some (ZBuffer file).
Proof.
  assert (ID +:+ ".content" ≠ ID +:+ ".pagedata") as N1
    by (intros H; apply append_inj in H; discriminate).
  assert (ID +:+ ".content" ≠ ID +:+ ".pdf") as N2
    by (intros H; apply append_inj in H; discriminate).
  assert (ID +:+ ".pagedata" ≠ ID +:+ ".pdf") as N3
    by (intros H; apply append_inj in H; discriminate).
  unfold package. repeat split.
  - rewrite map_size_insert_None, map_size_insert_None, map_size_insert_None,
      map_size_empty; [done|..].
    + apply lookup_empty.
    + rewrite lookup_insert_ne by congruence. apply lookup_empty.
    + rewrite lookup_insert_ne, lookup_insert_ne by congruence. apply lookup_empty.
  - rewrite lookup_insert_ne, lookup_insert_ne by congruence. apply lookup_insert_eq.
  - rewrite lookup_insert_ne by congruence. apply lookup_insert_eq.
  - apply lookup_insert_eq.
Qed.

Example descriptor_text :
  stringify defaultPDFContent
  = "{" +:+ quote "extraMetadata" +:+ ":{}," +:+ quote "fileType" +:+ ":" +:+ quote "pdf"
    +:+ "," +:+ quote "lastOpenedPage" +:+ ":0," +:+ quote "lineHeight" +:+ ":-1,"
    +:+ quote "margins" +:+ ":180," +:+ quote "pageCount" +:+ ":0,"
    +:+ quote "textScale" +:+ ":1," +:+ quote "transform" +:+ ":{}}".
Proof. reflexivity. Qed.

(** C2: the archive is replaced only after [uploadZip] has resolved.  On an
    instance whose first upload request is refused, [uploadPDF] is rejected
    and leaves its three entries in the instance's archive, which was empty
    before the call: the next call does not start from an empty package. *)
Theorem uploadPDF_rejected_keeps_package :
  ∃ s1 tr1,
    uploadPDF refusedOnce "First" pdfBytes (paired refusedOnce).1 (paired refusedOnce).2
    = (Rejected UploadRequestError, s1, tr1) ∧
    zip (paired refusedOnce).1 = ∅ ∧
    zip s1 = package "uuid-2" pdfBytes ∅ ∧
    size (zip s1) = 3%nat.
Proof.
  eexists _, _. split; [vm_compute; reflexivity|].
  split; [reflexivity|]. split; vm_compute; reflexivity.
Qed.

(** C8: on the same instance, the call that follows the rejected one is
    granted its upload request, resolves to its own document id, and
    transfers an archive of six entries: its own three and the three the
    rejected call left behind. *)
Theorem uploadPDF_after_rejection_packs_six :
  ∃ s1 tr1 s2 tr2,
    uploadPDF refusedOnce "First" pdfBytes (paired refusedOnce).1 (paired refusedOnce).2
    = (Rejected UploadRequestError, s1, tr1) ∧
    uploadPDF refusedOnce "Second" pdfBytes s1 tr1 = (Resolved "uuid-5", s2, tr2) ∧
    let pkg := package "uuid-5" pdfBytes (package "uuid-2" pdfBytes ∅) in
    size pkg = 6%nat ∧
    tr2 !! 7%nat
    = Some (Http (mkRequest PUT "https://blob.example/put"
                    (mkHeaders (Some "remarkable-typescript/1.0.0")
                       (Some "Bearer stok") (Some EmptyString))
                    (RawBody (generateAsync refusedOnce pkg)))).
Proof.
  eexists _, _, _, _. split; [vm_compute; reflexivity|].
  split; [vm_compute; reflexivity|]. split; vm_compute; reflexivity.
Qed.

(** * Further properties of the class *)

(** ** Footprints *)

#[export] Instance unchanged_preorder {B : Type} (f : Remarkable → B) :
  PreOrder (unchanged f).
Proof.
  split; [intros s; reflexivity|].
  intros s1 s2 s3 H1 H2. unfold unchanged in *. congruence.
Qed.

#[export] Instance maintains_preorder (I : Remarkable → Prop) : PreOrder (maintains I).
Proof. split; [intros s H; exact H | intros s1 s2 s3 H1 H2 H; apply H2, H1, H]. Qed.

Section Respects.

Context (R : Remarkable → Remarkable → Prop) `{!PreOrder R}.
Variable w : World.

Lemma respects_ret {A} (a : A) : respects R (ret a).
Proof. by intros s tr. Qed.

Lemma respects_throw {A} (e : Exn) : respects R (@throw A e).
Proof. by intros s tr. Qed.

Lemma respects_this : respects R this.
Proof. by intros s tr. Qed.

Lemma respects_await {A} (oracle : list Effect → Request → string + A) r :
  respects R (await oracle r).
Proof. intros s tr. unfold await. by destruct (oracle tr r). Qed.

Lemma respects_draw {A} (oracle : list Effect → A) e : respects R (draw oracle e).
Proof. by intros s tr. Qed.

Lemma respects_collect u : respects R (collect w u).
Proof. intros s tr. unfold collect. by destruct (readStream w tr u). Qed.

Lemma respects_bind {A B} (m : Async A) (k : A → Async B) :
  respects R m → (∀ a, respects R (k a)) → respects R (bind m k).
Proof.
  intros Hm Hk s tr. unfold bind. specialize (Hm s tr).
  destruct (m s tr) as [[[a|e|] s'] tr']; simpl in *; try done.
  etrans; [exact Hm | apply Hk].
Qed.

Lemma respects_calls ops :
  (∀ op, respects R (call w op)) → ∀ s tr, R s (calls w ops s tr).1.
Proof.
  intros H. induction ops as [|op ops IH]; intros s tr; simpl; [done|].
  specialize (H op s tr). destruct (call w op s tr) as [[o s'] tr']. simpl in H.
  etrans; [exact H | apply IH].
Qed.

End Respects.

Ltac methods :=
  unfold call, uploadPDF, uploadZip, downloadZip, deleteItem, getAllItems,
    getItemWithId, listItems, register, refreshToken, getNotificationsUrl,
    getStorageUrl, setToken, zip_file.

Ltac footprint fin :=
  repeat first
    [ apply _
    | apply respects_ret | apply respects_throw | apply respects_this
    | apply respects_await | apply respects_draw | apply respects_collect
    | apply respects_bind; [apply _ | | intros ?]
    | match goal with
      | |- respects _ (assign _) => intros ? ?; fin
      | |- respects _ (if ?b then _ else _) => destruct b
      | |- respects _ (match ?x with _ => _ end) => destruct x
      end
    | progress cbv zeta ].

Ltac same := unfold unchanged; simpl; reflexivity.

Lemma register_unpaired w a s tr :
  truthy (Some (reg_code a)) = false →
  register w a s tr = (Rejected RegistrationError, s, tr).
Proof. intros H. unfold register. by rewrite H. Qed.

Lemma credentials_footprint w op :
  exchangesCredentials op = false →
  respects (unchanged token) (call w op) ∧
  respects (unchanged deviceToken) (call w op) ∧
  respects (unchanged gotClient) (call w op).
Proof.
  intros H. destruct op; try discriminate H; repeat split; methods; footprint same.
Qed.

Lemma zip_footprint w op :
  isUploadPDF op = false → respects (unchanged zip) (call w op).
Proof. intros H. destruct op; try discriminate H; methods; footprint same. Qed.

Lemma notification_footprint w op :
  isGetNotificationsUrl op = false → respects (unchanged notificationUrl) (call w op).
Proof. intros H. destruct op; try discriminate H; methods; footprint same. Qed.

Lemma storage_footprint w op :
  exchangesCredentials op = true ∨ isGetNotificationsUrl op = true →
  respects (unchanged storageUrl) (call w op).
Proof.
  intros [H|H]; destruct op; try discriminate H; methods; footprint same.
Qed.

Lemma deviceToken_footprint w op :
  registersDevice op = false → respects (unchanged deviceToken) (call w op).
Proof.
  intros H. destruct op; try solve [methods; footprint same].
  intros s tr. simpl in H. unfold call, bind. by rewrite (register_unpaired _ _ _ _ H).
Qed.

(** X1: what each method may write.  Only [refreshToken] and [register]
    change the session token, the device token or the headers of the client
    (and of the two only a [register] that passes its code check changes the
    device token); only [uploadPDF] changes the archive; only
    [getNotificationsUrl] changes the cached notification endpoint; and
    [refreshToken], [register] and [getNotificationsUrl] leave the cached
    storage endpoint alone.  This holds whatever the outcome of the call. *)
Theorem method_footprints (w : World) (op : Op) (s : Remarkable) (tr : list Effect) :
  (exchangesCredentials op = false →
   token (call w op s tr).1.2 = token s ∧
   deviceToken (call w op s tr).1.2 = deviceToken s ∧
   gotClient (call w op s tr).1.2 = gotClient s) ∧
  (registersDevice op = false → deviceToken (call w op s tr).1.2 = deviceToken s) ∧
  (isUploadPDF op = false → zip (call w op s tr).1.2 = zip s) ∧
  (isGetNotificationsUrl op = false →
   notificationUrl (call w op s tr).1.2 = notificationUrl s) ∧
  (exchangesCredentials op = true ∨ isGetNotificationsUrl op = true →
   storageUrl (call w op s tr).1.2 = storageUrl s).
Proof.
  split; [|split; [|split; [|split]]]; intros H.
  - destruct (credentials_footprint w op H) as (T & D & G).
    split; [apply T | split; [apply D | apply G]].
  - by apply deviceToken_footprint.
  - by apply zip_footprint.
  - by apply notification_footprint.
  - by apply storage_footprint.
Qed.

Lemma method_footprints_witness :
  token (call refusedOnce (CallUploadPDF "First" pdfBytes)
           (paired refusedOnce).1 (paired refusedOnce).2).1.2 = Some "stok"
  ∧ zip (call sunny (CallUploadZip "Report" "doc-1" pdfBytes)
           (paired sunny).1 (paired sunny).2).1.2 = ∅.
Proof.
  split.
  - refine (proj1 (proj1 (method_footprints refusedOnce
                            (CallUploadPDF "First" pdfBytes) _ _) _)).
    reflexivity.
  - refine (proj1 (proj2 (proj2 (method_footprints sunny
                                   (CallUploadZip "Report" "doc-1" pdfBytes) _ _))) _).
    reflexivity.
Defined.

(** ** Invariants of an instance *)

Lemma client_maintained w op : respects (maintains (clientInvariant w)) (call w op).
Proof.
  destruct op; methods;
    footprint ltac:(unfold maintains, clientInvariant; simpl; first [reflexivity | tauto]).
Qed.

(** X2: on every instance, after any sequence of calls, the headers the
    client sends are the configured user agent and, exactly when a session
    token has been stored, the bearer of that very token: a request made
    through the client never carries a token other than the current one. *)
Theorem client_carries_current_token (w : World) (props : option string) (ops : list Op) :
  gotClient (calls w ops (constructor w props) []).1
  = mkHeaders (Some (userAgent w))
      (String.append "Bearer " <$> token (calls w ops (constructor w props) []).1)
      None.
Proof.
  apply (respects_calls (maintains (clientInvariant w)) w ops (client_maintained w)
           (constructor w props) []).
  reflexivity.
Qed.

Lemma endpoints_maintained w op : respects (maintains endpointsWellFormed) (call w op).
Proof.
  destruct op; methods;
    footprint ltac:(unfold maintains, endpointsWellFormed; simpl;
                    intros [? ?]; split; intros ? E;
                    first [by auto | injection E as <-; eexists; reflexivity]).
Qed.

(** X3: on every instance, after any sequence of calls, a cached storage
    endpoint is [https://] followed by a host and a cached notification
    endpoint is [wss://] followed by a host; in particular a cached endpoint
    is never the empty string, so the truthiness test that guards the cache
    cannot mistake a cached endpoint for a missing one. *)
Theorem cached_endpoints_well_formed (w : World) (props : option string) (ops : list Op) :
  (∀ u, storageUrl (calls w ops (constructor w props) []).1 = Some u →
        (∃ h, u = "https://" +:+ h) ∧ truthy (Some u) = true) ∧
  (∀ u, notificationUrl (calls w ops (constructor w props) []).1 = Some u →
        (∃ h, u = "wss://" +:+ h) ∧ truthy (Some u) = true).
Proof.
  assert (endpointsWellFormed (calls w ops (constructor w props) []).1) as [S N].
  { apply (respects_calls (maintains endpointsWellFormed) w ops (endpoints_maintained w)
             (constructor w props) []).
    split; intros u [=]. }
  split; intros u E.
  - destruct (S u E) as [h ->]. eauto.
  - destruct (N u E) as [h ->]. eauto.
Qed.

Lemma cached_endpoints_well_formed_witness :
  (∃ h, "https://host.example" = "https://" +:+ h) ∧
  truthy (Some "https://host.example") = true.
Proof.
  refine (proj1 (cached_endpoints_well_formed sunny None
                   [CallRegister pairing; CallGetAllItems]) _ _).
  vm_compute. reflexivity.
Defined.

Lemma offline_call w props op tr :
  truthy props = false → registersDevice op = false →
  ∃ out, call w op (constructor w props) tr = (out, constructor w props, tr).
Proof.
  intros P H. unfold constructor. rewrite P.
  destruct op; simpl in H; try discriminate H; simpl; methods; async; simpl; eauto.
  rewrite H. simpl. eauto.
Qed.

(** X4: an instance constructed without a device token (absent or empty)
    stays as constructed and issues no request, whatever methods are called
    on it, as long as no [register] is given a non-empty code; and
    [refreshToken] on it is rejected with the registration-required error. *)
Theorem unregistered_instance_stays_offline
  (w : World) (props : option string) (ops : list Op) :
  truthy props = false →
  forallb (λ op, negb (registersDevice op)) ops = true →
  calls w ops (constructor w props) [] = (constructor w props, []) ∧
  refreshToken w (constructor w props) []
  = (Rejected DeviceTokenRequiredError, constructor w props, []).
Proof.
  intros P F. split.
  - induction ops as [|op ops IH]; simpl; [done|].
    simpl in F. apply andb_prop in F as [F1 F2]. apply negb_true_iff in F1.
    destruct (offline_call w props op [] P F1) as [out ->]. by apply IH.
  - unfold constructor. rewrite P. reflexivity.
Qed.

Lemma unregistered_instance_stays_offline_witness :
  calls sunny [CallRegister (mkRegisterArgs EmptyString None None); CallRefreshToken;
               CallUploadPDF "Report" pdfBytes; CallDeleteItem "doc-1" 1;
               CallGetNotificationsUrl noOptions]
    (constructor sunny (Some EmptyString)) []
  = (constructor sunny (Some EmptyString), []).
Proof.
  refine (proj1 (unregistered_instance_stays_offline sunny (Some EmptyString) _ _ _)).
  - reflexivity.
  - reflexivity.
Defined.

(** ** Tokens *)

Lemma refreshToken_cases w s tr :
  (truthy (deviceToken s) = false ∧
   refreshToken w s tr = (Rejected DeviceTokenRequiredError, s, tr)) ∨
  (∃ e, postText w tr (refreshRequest w (deviceToken s)) = inl e ∧
        refreshToken w s tr
        = (Rejected (GotError e), s, tr ++ [Http (refreshRequest w (deviceToken s))])) ∨
  (∃ b, postText w tr (refreshRequest w (deviceToken s)) = inr b ∧
        refreshToken w s tr
        = (Resolved b,
           with_token (Some b) (mkHeaders (Some (userAgent w)) (Some ("Bearer " +:+ b)) None) s,
           tr ++ [Http (refreshRequest w (deviceToken s))])).
Proof.
  unfold refreshToken, setToken, refreshRequest. async.
  destruct (truthy (deviceToken s)); simpl; [|by left]. right.
  destruct (postText w tr _) as [e|b]; simpl; [left|right]; eauto.
Qed.

(** X5: a rejected [refreshToken] leaves the instance exactly as it was,
    so a session token obtained earlier stays in use; a resolved one stores
    the answer as the session token, whatever token was there, sends it from
    then on as the client's bearer, and has issued the one request
    authorised by the device token. *)
Theorem refreshToken_replaces_or_keeps
  (w : World) (s s' : Remarkable) (tr tr' : list Effect) :
  (∀ e, refreshToken w s tr = (Rejected e, s', tr') → s' = s) ∧
  (∀ b, refreshToken w s tr = (Resolved b, s', tr') →
        token s' = Some b ∧
        Authorization (gotClient s') = Some ("Bearer " +:+ b) ∧
        deviceToken s' = deviceToken s ∧
        tr' = tr ++ [Http (refreshRequest w (deviceToken s))]).
Proof.
  destruct (refreshToken_cases w s tr) as [[_ E]|[[e [_ E]]|[b [_ E]]]];
    rewrite E; split; intros x [=]; subst; done.
Qed.

Lemma refreshToken_replaces_or_keeps_witness :
  token (refreshToken sunny (paired sunny).1 (paired sunny).2).1.2 = Some "stok"
  ∧ (refreshToken noSession (paired noSession).1 (paired noSession).2).1.2
    = (paired noSession).1.
Proof.
  split.
  - refine (proj1 (proj2 (refreshToken_replaces_or_keeps sunny
                            (paired sunny).1 _ (paired sunny).2 _) "stok" _)).
    vm_compute. reflexivity.
  - refine (proj1 (refreshToken_replaces_or_keeps noSession
                     (paired noSession).1 _ (paired noSession).2 _)
              (GotError "HTTPError 500") _).
    vm_compute. reflexivity.
Defined.

(** X6: a [register] whose pairing code is not empty, answered with a
    non-empty device token and then with a session token, issues exactly the
    registration request (without credentials) followed by the refresh
    request (authorised by the new device token), stores both tokens, and
    resolves to the device token, not to the session token. *)
Theorem register_resolves_to_device_token
  (w : World) (a : RegisterArgs) (s : Remarkable) (tr : list Effect)
  (dtok stok : string) :
  reg_code a ≠ EmptyString →
  postText w tr (registerRequest w a) = inr dtok →
  dtok ≠ EmptyString →
  postText w (tr ++ [Http (registerRequest w a)]) (refreshRequest w (Some dtok)) = inr stok →
  register w a s tr
  = (Resolved dtok,
     with_token (Some stok)
       (mkHeaders (Some (userAgent w)) (Some ("Bearer " +:+ stok)) None)
       (with_deviceToken (Some dtok) s),
     tr ++ [Http (registerRequest w a); Http (refreshRequest w (Some dtok))]).
Proof.
  intros C P D Q. unfold register.
  destruct (reg_code a) eqn:Ec; [done|]. simpl. rewrite <- Ec.
  unfold bind at 1, await. fold (registerRequest w a). rewrite P.
  unfold bind at 1, assign. unfold bind at 1.
  destruct (refreshToken_cases w (with_deviceToken (Some dtok) s)
              (tr ++ [Http (registerRequest w a)])) as [[T _]|[[e [E _]]|[b [E ->]]]];
    simpl in *.
  - by destruct dtok.
  - congruence.
  - rewrite Q in E. injection E as <-. unfold ret. by rewrite <- app_assoc.
Qed.

Lemma register_resolves_to_device_token_witness :
  ∃ s' tr', register sunny pairing (constructor sunny None) [] = (Resolved "dtok", s', tr')
            ∧ token s' = Some "stok" ∧ length tr' = 2%nat.
Proof.
  eexists _, _. split.
  - apply (register_resolves_to_device_token sunny pairing (constructor sunny None) []
             "dtok" "stok"); [discriminate | reflexivity | discriminate | reflexivity].
  - split; reflexivity.
Defined.

(** X7: when the refresh is answered with the empty string, [refreshToken]
    resolves, but the instance counts as unauthenticated: each method that
    tests the session token itself ([listItems], [getItemWithId],
    [getAllItems], [downloadZip], [uploadZip], [uploadPDF]) is rejected with
    the authentication error and issues no request, even with a cached
    endpoint. *)
Theorem empty_session_token_is_no_token
  (w : World) (op : Op) (s s1 : Remarkable) (tr tr1 : list Effect) :
  refreshToken w s tr = (Resolved EmptyString, s1, tr1) →
  checksToken op = true →
  call w op s1 tr1 = (Rejected AuthenticationRequiredError, s1, tr1).
Proof.
  intros R C.
  assert (token s1 = Some EmptyString) as T.
  { destruct (refreshToken_cases w s tr) as [[_ E]|[[e [_ E]]|[b [_ E]]]];
      rewrite E in R; by simplify_eq. }
  destruct op; try discriminate C; simpl; methods; async; by rewrite T.
Qed.

Lemma empty_session_token_is_no_token_witness :
  ∃ s1 tr1,
    refreshToken emptySession (paired emptySession).1 (paired emptySession).2
    = (Resolved EmptyString, s1, tr1) ∧
    call emptySession (CallUploadPDF "Report" pdfBytes) s1 tr1
    = (Rejected AuthenticationRequiredError, s1, tr1).
Proof.
  eexists _, _. split; [vm_compute; reflexivity|].
  eapply (empty_session_token_is_no_token emptySession
            (CallUploadPDF "Report" pdfBytes) (paired emptySession).1 _
            (paired emptySession).2 _).
  - vm_compute. reflexivity.
  - reflexivity.
Defined.

(** ** Endpoint discovery *)

Lemma getStorageUrl_cached w o s tr :
  truthy (storageUrl s) = true →
  getStorageUrl w o s tr = (Resolved (interpolate (storageUrl s)), s, tr).
Proof. intros C. unfold getStorageUrl. async. by rewrite C. Qed.

(** X8: a discovery request that [got] rejects caches nothing: the call is
    rejected with that error and the instance is unchanged, and the next
    call asks the service again and caches the answer.  The same holds for
    the notification endpoint. *)
Theorem failed_discovery_is_retried
  (w : World) (o : UrlOptions) (s : Remarkable) (tr : list Effect) (e : string) :
  truthy (token s) = true →
  (let q := discoveryRequest "document-storage" 2 o (gotClient s) in
   truthy (storageUrl s) = false →
   getHost w tr q = inl e →
   getStorageUrl w o s tr = (Rejected (GotError e), s, tr ++ [Http q]) ∧
   ∀ b, getHost w (tr ++ [Http q]) q = inr b →
        getStorageUrl w o s (tr ++ [Http q])
        = (Resolved ("https://" +:+ Host b),
           with_storageUrl (Some ("https://" +:+ Host b)) s,
           tr ++ [Http q; Http q])) ∧
  (let q := discoveryRequest "notifications" 1 o (gotClient s) in
   truthy (notificationUrl s) = false →
   getHost w tr q = inl e →
   getNotificationsUrl w o s tr = (Rejected (GotError e), s, tr ++ [Http q]) ∧
   ∀ b, getHost w (tr ++ [Http q]) q = inr b →
        getNotificationsUrl w o s (tr ++ [Http q])
        = (Resolved ("wss://" +:+ Host b),
           with_notificationUrl (Some ("wss://" +:+ Host b)) s,
           tr ++ [Http q; Http q])).
Proof.
  intros T. split; intros q C H; subst q; unfold discoveryRequest in *;
    (split; [|intros b B]);
    unfold getStorageUrl, getNotificationsUrl; async; rewrite C, T; simpl;
    rewrite ?H, ?B; simpl; by rewrite <- ?app_assoc.
Qed.

Lemma failed_discovery_is_retried_witness :
  ∃ q,
    getStorageUrl flakyDiscovery noOptions (paired flakyDiscovery).1 (paired flakyDiscovery).2
    = (Rejected (GotError "ETIMEDOUT"), (paired flakyDiscovery).1,
       (paired flakyDiscovery).2 ++ [Http q])
    ∧ getStorageUrl flakyDiscovery noOptions (paired flakyDiscovery).1
        ((paired flakyDiscovery).2 ++ [Http q])
      = (Resolved "https://host.example",
         with_storageUrl (Some "https://host.example") (paired flakyDiscovery).1,
         (paired flakyDiscovery).2 ++ [Http q; Http q]).
Proof.
  eexists.
  destruct (proj1 (failed_discovery_is_retried flakyDiscovery noOptions
                     (paired flakyDiscovery).1 (paired flakyDiscovery).2 "ETIMEDOUT"
                     eq_refl) eq_refl eq_refl) as [F R].
  split; [exact F|]. apply (R (mkServiceBody "host.example" "OK")). reflexivity.
Defined.

(** ** Document directory *)

(** X9: [deleteItem] does not test the session token.  With a cached
    storage endpoint it sends the delete request through the client
    whatever the session token is (absent, empty or valid), and is never
    rejected with the authentication error. *)
Theorem deleteItem_skips_token_check
  (w : World) (id : string) (version : Z) (s : Remarkable) (tr : list Effect) :
  truthy (storageUrl s) = true →
  ∃ out,
    deleteItem w id version s tr
    = (out, s,
       tr ++ [Http (deleteRequest (interpolate (storageUrl s)) (gotClient s) id version)])
    ∧ out ≠ Rejected AuthenticationRequiredError.
Proof.
  intros C. unfold deleteItem. unfold bind at 1.
  rewrite (getStorageUrl_cached _ _ _ _ C). async.
  fold (deleteRequest (interpolate (storageUrl s)) (gotClient s) id version).
  destruct (putReturn w tr _) as [e|[|r rest]]; eexists; (split; [reflexivity|]);
    discriminate.
Qed.

Lemma deleteItem_skips_token_check_witness :
  token lapsed.1 = Some EmptyString ∧
  ∃ out,
    deleteItem lapsing "doc-1" 3 lapsed.1 lapsed.2
    = (out, lapsed.1,
       lapsed.2 ++ [Http (deleteRequest (interpolate (storageUrl lapsed.1))
                            (gotClient lapsed.1) "doc-1" 3)])
    ∧ out ≠ Rejected AuthenticationRequiredError.
Proof.
  split; [reflexivity|].
  apply (deleteItem_skips_token_check lapsing "doc-1" 3 lapsed.1 lapsed.2).
  reflexivity.
Defined.

(** ** The upload protocol *)

(** [uploadZip] once its upload request has been granted a write URL: the
    transfer, then the two readings of the clock and the update-status
    request; the storage endpoint is read from the cache. *)
Lemma uploadZip_granted w name ID zipFile s s1 tr tr1 base r rest u :
  truthy (token s) = true →
  getStorageUrl w noOptions s tr = (Resolved base, s1, tr1) →
  putUploadRequest w tr1 (uploadRequest base (gotClient s1) ID) = inr (r :: rest) →
  upl_Success r = true →
  upl_BlobURLPut r = Some u →
  u ≠ EmptyString →
  let req := uploadRequest base (gotClient s1) ID in
  let put := transferRequest w u (token s1) zipFile in
  let tr2 := tr1 ++ [Http req; Http put] in
  let fin := updateStatusRequest base (gotClient s1) name ID
               (toISOString w tr2) (toISOString w (tr2 ++ [ReadClock])) in
  let tr3 := tr2 ++ [ReadClock; ReadClock; Http fin] in
  uploadZip w name ID zipFile s tr =
  match putBlob w (tr1 ++ [Http req]) put with
  | inl e => (Rejected (GotError e), s1, tr2)
  | inr statusCode =>
      if statusCode =? 200 then
        match putReturn w (tr2 ++ [ReadClock; ReadClock]) fin with
        | inl e => (Rejected (GotError e), s1, tr3)
        | inr [] => (Rejected (TypeError "Success"), s1, tr3)
        | inr (r' :: _) =>
            if ret_Success r' then (Resolved (ret_ID r'), s1, tr3)
            else (Rejected MetadataUpdateError, s1, tr3)
        end
      else (Rejected UploadTransferError, s1, tr2)
  end.
Proof.
  intros T G P S B U req put tr2 fin tr3.
  destruct (getStorageUrl_resolved _ _ _ _ _ _ _ G) as [Es C].
  assert (∀ l, getStorageUrl w noOptions s1 l = (Resolved base, s1, l)) as G2.
  { intros l. rewrite (getStorageUrl_cached _ _ _ _ C). by rewrite Es. }
  subst req put tr2 fin tr3.
  unfold uploadRequest, transferRequest, updateStatusRequest in *.
  unfold uploadZip. unfold bind at 1, this. rewrite T. simpl.
  unfold bind at 1. rewrite G. unfold bind at 1, this.
  unfold bind at 1, await. rewrite P. rewrite S, B.
  destruct u as [|c u']; [done|]. simpl.
  unfold bind at 1, this. unfold bind at 1.
  rewrite <- ?app_assoc. simpl.
  destruct (putBlob w _ _) as [e|statusCode]; [done|].
  destruct (statusCode =? 200); simpl; [|done].
  unfold bind, draw, throw, ret. rewrite G2. simpl. rewrite <- ?app_assoc. simpl.
  destruct (putReturn w _ _) as [e|[|r' rest']]; [done|done|].
  by destruct (ret_Success r').
Qed.

Section Granted.

Variable w : World.
Variables (name ID : string) (zipFile : Buffer).
Variables (s s1 : Remarkable) (tr tr1 : list Effect) (base u : string).
Variables (r : UploadRequestReturnType) (rest : list UploadRequestReturnType).

Let req : Request := uploadRequest base (gotClient s1) ID.
Let put : Request := transferRequest w u (token s1) zipFile.
Let tr2 : list Effect := tr1 ++ [Http req; Http put].
Let fin : Request :=
  updateStatusRequest base (gotClient s1) name ID
    (toISOString w tr2) (toISOString w (tr2 ++ [ReadClock])).

Hypothesis authenticated : truthy (token s) = true.
Hypothesis endpoint : getStorageUrl w noOptions s tr = (Resolved base, s1, tr1).
Hypothesis slot : putUploadRequest w tr1 req = inr (r :: rest).
Hypothesis slot_granted : upl_Success r = true.
Hypothesis slot_url : upl_BlobURLPut r = Some u.
Hypothesis slot_url_given : u ≠ EmptyString.

(** X10: once the upload request is granted, a transfer answered with any
    status other than 200 (another success status included) rejects
    [uploadZip] with the transfer error; the log ends with the transfer, so
    the update-status request is not issued and the upload request is not
    undone. *)
Theorem uploadZip_transfer_not_200 (statusCode : Z) :
  putBlob w (tr1 ++ [Http req]) put = inr statusCode →
  statusCode ≠ 200 →
  uploadZip w name ID zipFile s tr = (Rejected UploadTransferError, s1, tr2).
Proof.
  intros B N.
  rewrite (uploadZip_granted w name ID zipFile s s1 tr tr1 base r rest u
             authenticated endpoint slot slot_granted slot_url slot_url_given).
  fold req put. rewrite B. by destruct (Z.eqb_spec statusCode 200).
Qed.

(** X11: the complete upload.  With the request granted, the transfer
    answered 200 and the update-status answer marking success, [uploadZip]
    has issued, after the endpoint lookup, exactly the upload request, the
    transfer of the buffer to the granted URL (authorised by the session
    token, with an empty content type) and, after two readings of the clock,
    the update-status request naming the document and carrying the default
    flags; it resolves to the id the service answered with, which need not
    be the id it was given. *)
Theorem uploadZip_completes (r' : ReturnType) (rest' : list ReturnType) :
  putBlob w (tr1 ++ [Http req]) put = inr 200 →
  putReturn w (tr2 ++ [ReadClock; ReadClock]) fin = inr (r' :: rest') →
  ret_Success r' = true →
  uploadZip w name ID zipFile s tr
  = (Resolved (ret_ID r'), s1,
     tr1 ++ [Http req; Http put; ReadClock; ReadClock; Http fin]).
Proof.
  intros B F S.
  rewrite (uploadZip_granted w name ID zipFile s s1 tr tr1 base r rest u
             authenticated endpoint slot slot_granted slot_url slot_url_given).
  fold req put tr2 fin. rewrite B. simpl. rewrite F, S.
  unfold tr2. by rewrite <- app_assoc.
Qed.

(** X12: when the update-status answer marks failure, [uploadZip] is
    rejected with the metadata error after the buffer has been transferred:
    the log holds the upload request, the transfer and the update-status
    request, and nothing that would undo them. *)
Theorem uploadZip_update_status_refused (r' : ReturnType) (rest' : list ReturnType) :
  putBlob w (tr1 ++ [Http req]) put = inr 200 →
  putReturn w (tr2 ++ [ReadClock; ReadClock]) fin = inr (r' :: rest') →
  ret_Success r' = false →
  uploadZip w name ID zipFile s tr
  = (Rejected MetadataUpdateError, s1,
     tr1 ++ [Http req; Http put; ReadClock; ReadClock; Http fin]).
Proof.
  intros B F S.
  rewrite (uploadZip_granted w name ID zipFile s s1 tr tr1 base r rest u
             authenticated endpoint slot slot_granted slot_url slot_url_given).
  fold req put tr2 fin. rewrite B. simpl. rewrite F, S.
  unfold tr2. by rewrite <- app_assoc.
Qed.

End Granted.

Lemma uploadZip_transfer_not_200_witness :
  ∃ s1 tr',
    uploadZip partialTransfer "Report" "my-id" pdfBytes
      (paired partialTransfer).1 (paired partialTransfer).2
    = (Rejected UploadTransferError, s1, tr').
Proof.
  eexists _, _.
  refine (uploadZip_transfer_not_200 partialTransfer "Report" "my-id" pdfBytes
            (paired partialTransfer).1 _ (paired partialTransfer).2 _ _
            "https://blob.example/put"
            (mkUploadRequestReturnType true (Some "https://blob.example/put")) []
            _ _ _ _ _ _ 204 _ _).
  - reflexivity.
  - vm_compute. reflexivity.
  - vm_compute. reflexivity.
  - reflexivity.
  - reflexivity.
  - discriminate.
  - reflexivity.
  - discriminate.
Defined.

Lemma uploadZip_completes_witness :
  ∃ s1 tr',
    uploadZip sunny "Report" "my-id" pdfBytes (paired sunny).1 (paired sunny).2
    = (Resolved "doc-1", s1, tr').
Proof.
  eexists _, _.
  refine (uploadZip_completes sunny "Report" "my-id" pdfBytes
            (paired sunny).1 _ (paired sunny).2 _ _
            "https://blob.example/put"
            (mkUploadRequestReturnType true (Some "https://blob.example/put")) []
            _ _ _ _ _ _ (mkReturnType "doc-1" true) [] _ _ _).
  - reflexivity.
  - vm_compute. reflexivity.
  - vm_compute. reflexivity.
  - reflexivity.
  - reflexivity.
  - discriminate.
  - reflexivity.
  - reflexivity.
  - reflexivity.
Defined.

Lemma uploadZip_update_status_refused_witness :
  ∃ s1 tr',
    uploadZip staleVersion "Report" "my-id" pdfBytes
      (paired staleVersion).1 (paired staleVersion).2
    = (Rejected MetadataUpdateError, s1, tr')
    ∧ length tr' = 8%nat.
Proof.
  eexists _, _. split.
  - refine (uploadZip_update_status_refused staleVersion "Report" "my-id" pdfBytes
              (paired staleVersion).1 _ (paired staleVersion).2 _ _
              "https://blob.example/put"
              (mkUploadRequestReturnType true (Some "https://blob.example/put")) []
              _ _ _ _ _ _ (mkReturnType "doc-1" false) [] _ _ _).
    + reflexivity.
    + vm_compute. reflexivity.
    + vm_compute. reflexivity.
    + reflexivity.
    + reflexivity.
    + discriminate.
    + reflexivity.
    + reflexivity.
    + reflexivity.
  - reflexivity.
Defined.

(** X13: an answer that is an empty array is not treated as a refusal:
    reading the first result fails, so [deleteItem] and the request phase of
    [uploadZip] are rejected with a type error (not with a boolean result,
    nor with the upload-request error), after the request has been issued. *)
Theorem empty_answer_is_a_type_error
  (w : World) (s s1 : Remarkable) (tr tr1 : list Effect) (base : string) :
  getStorageUrl w noOptions s tr = (Resolved base, s1, tr1) →
  (∀ id version,
     putReturn w tr1 (deleteRequest base (gotClient s1) id version) = inr [] →
     deleteItem w id version s tr
     = (Rejected (TypeError "Success"), s1,
        tr1 ++ [Http (deleteRequest base (gotClient s1) id version)])) ∧
  (∀ name ID zipFile,
     truthy (token s) = true →
     putUploadRequest w tr1 (uploadRequest base (gotClient s1) ID) = inr [] →
     uploadZip w name ID zipFile s tr
     = (Rejected (TypeError "Success"), s1,
        tr1 ++ [Http (uploadRequest base (gotClient s1) ID)])).
Proof.
  intros G. split.
  - intros id version P. unfold deleteRequest in *.
    unfold deleteItem. unfold bind at 1. rewrite G. async. by rewrite P.
  - intros name ID zipFile T P. unfold uploadRequest in *.
    unfold uploadZip. unfold bind at 1, this. rewrite T. simpl.
    unfold bind at 1. rewrite G. async. by rewrite P.
Qed.

Lemma empty_answer_is_a_type_error_witness :
  ∃ s1 tr',
    deleteItem emptyAnswers "doc-1" 3 (paired emptyAnswers).1 (paired emptyAnswers).2
    = (Rejected (TypeError "Success"), s1, tr').
Proof.
  eexists _, _.
  refine (proj1 (empty_answer_is_a_type_error emptyAnswers
                   (paired emptyAnswers).1 _ (paired emptyAnswers).2 _ _ _) "doc-1" 3 _).
  - vm_compute. reflexivity.
  - reflexivity.
Defined.

(** ** Download *)

(** X14: when the directory lists at least one item for the id and the
    first one has a non-empty [BlobURLGet], [downloadZip] opens exactly one
    stream, on that URL and after the directory request, and resolves to the
    concatenation of the chunks in the order received; it stays pending for
    ever when the stream does not signal its end.  Items after the first are
    ignored. *)
Theorem downloadZip_streams_first_item
  (w : World) (id u : string) (s s1 : Remarkable) (tr tr1 : list Effect)
  (item : ItemResponse) (rest : list ItemResponse) :
  listItems w (Some id) None s tr = (Resolved (item :: rest), s1, tr1) →
  item_BlobURLGet item = Some u →
  u ≠ EmptyString →
  downloadZip w id s tr
  = (match readStream w tr1 u with
     | Some chunks => Resolved (concat chunks)
     | None => Pending
     end, s1, tr1 ++ [OpenStream u]).
Proof.
  intros L B U.
  pose proof (listItems_resolved_token _ _ _ _ _ _ _ _ L) as T.
  unfold downloadZip, getItemWithId. unfold bind at 1, this. rewrite T. simpl.
  unfold bind. rewrite L. simpl. unfold ret. simpl. rewrite B.
  destruct u as [|c u']; [done|]. simpl. unfold collect.
  by destruct (readStream w tr1 (String c u')).
Qed.

Lemma downloadZip_streams_first_item_witness :
  ∃ s1 tr',
    downloadZip stalled "doc-1" (paired stalled).1 (paired stalled).2
    = (Pending, s1, tr').
Proof.
  eexists _, _.
  refine (downloadZip_streams_first_item stalled "doc-1" "https://blob.example/get"
            (paired stalled).1 _ (paired stalled).2 _
            (mkItemResponse "doc-1" 3 "Report" (Some "https://blob.example/get") None)
            [mkItemResponse "doc-2" 1 "Other" (Some "https://blob.example/other") None]
            _ _ _).
  - vm_compute. reflexivity.
  - reflexivity.
  - discriminate.
Defined.

(** ** Packaging *)

(** X15: a resolved [uploadPDF] resolves to the id it drew from [uuidv4]
    before anything else, not to the id in the service's update-status
    answer, and leaves the instance with an empty archive. *)
Theorem uploadPDF_resolves_to_generated_id
  (w : World) (name : string) (file : Buffer) (s s' : Remarkable)
  (tr tr' : list Effect) (v : string) :
  uploadPDF w name file s tr = (Resolved v, s', tr') →
  v = uuidv4 w tr ∧ zip s' = ∅.
Proof.
  destruct (truthy (token s)) eqn:T.
  - rewrite (uploadPDF_steps _ _ _ _ _ T). simpl.
    destruct (uploadZip w _ _ _ _ _) as [[[?|?|] ?] ?]; intros [= <- <- <-]; done.
  - unfold uploadPDF. unfold bind at 1, this. by rewrite T.
Qed.

Lemma uploadPDF_resolves_to_generated_id_witness :
  "uuid-2" = uuidv4 sunny (paired sunny).2
  ∧ zip (uploadPDF sunny "Report" pdfBytes (paired sunny).1 (paired sunny).2).1.2 = ∅.
Proof.
  refine (uploadPDF_resolves_to_generated_id sunny "Report" pdfBytes
            (paired sunny).1 _ (paired sunny).2 _ "uuid-2" _).
  vm_compute. reflexivity.
Defined.

(** ** Lifetime of the session *)


